(** * eRPC raw-Ethernet transport datapath

    A shallow embedding of [src/transport_impl/raw/raw_transport_datapath.cc]
    ([RawTransport::tx_burst], [tx_flush], [rx_burst] and [post_recvs]) and
    the properties of its specification.

    Conventions.
    - [size_t] values are integers in [0, 2^64); every [size_t] operation of
      the source is written with its wrap-around ([add64], [sub64], [mul64]).
      [uint32_t] and [uint16_t] conversions are [wrap32] and [wrap16].
    - The members of the transport object, the byte-addressed memory the
      packet headers live in, the submissions the NIC has received and the
      lines printed on stderr form one [state] that every operation threads.
    - An operation either returns, terminates the process ([exit]), fails an
      [assert] (debug builds only), or indexes an array out of bounds. *)

From Stdlib Require Import ZArith Lia String.
From stdpp Require Import base list.

Local Open Scope Z_scope.

(** ** Machine arithmetic *)

Definition wrap64 (z : Z) : Z := z mod 2 ^ 64.
Definition wrap32 (z : Z) : Z := z mod 2 ^ 32.
Definition wrap16 (z : Z) : Z := z mod 2 ^ 16.

Definition add64 (a b : Z) : Z := wrap64 (a + b).
Definition sub64 (a b : Z) : Z := wrap64 (a - b).
Definition mul64 (a b : Z) : Z := wrap64 (a * b).

(** Conversion of a [size_t] to a C [int] (two's complement, 32 bits). *)
Definition to_int (z : Z) : Z :=
  let w := wrap32 z in if w <? 2 ^ 31 then w else w - 2 ^ 32.

Definition is_size_t (z : Z) : Prop := 0 <= z < 2 ^ 64.

(** ** Byte-addressed memory *)

Definition memory : Type := Z -> Z.

Definition store8 (m : memory) (a v : Z) : memory :=
  fun x => if x =? a then v mod 256 else m x.

Fixpoint load_bytes (m : memory) (a : Z) (n : nat) : list Z :=
  match n with
  | O => []
  | S k => m a :: load_bytes m (a + 1) k
  end.

Fixpoint store_bytes (m : memory) (a : Z) (bs : list Z) : memory :=
  match bs with
  | [] => m
  | b :: rest => store_bytes (store8 m a b) (a + 1) rest
  end.

(** [memcpy(dst, src, n)]: all of the source is read before anything is
    written. *)
Definition memcpy (m : memory) (dst src : Z) (n : nat) : memory :=
  store_bytes m dst (load_bytes m src n).


(** ** Verbs structures *)

(** A pointer to an element of a descriptor array, by the element's index. *)
Inductive ptr : Type :=
| nullptr
| elem (i : Z).

Definition ptr_eqb (p q : ptr) : bool :=
  match p, q with
  | nullptr, nullptr => true
  | elem i, elem j => i =? j
  | _, _ => false
  end.

Inductive ibv_wr_opcode : Type :=
| IBV_WR_RDMA_WRITE
| IBV_WR_RDMA_WRITE_WITH_IMM
| IBV_WR_SEND
| IBV_WR_SEND_WITH_IMM
| IBV_WR_RDMA_READ.

Definition opcode_eqb (a b : ibv_wr_opcode) : bool :=
  match a, b with
  | IBV_WR_RDMA_WRITE, IBV_WR_RDMA_WRITE
  | IBV_WR_RDMA_WRITE_WITH_IMM, IBV_WR_RDMA_WRITE_WITH_IMM
  | IBV_WR_SEND, IBV_WR_SEND
  | IBV_WR_SEND_WITH_IMM, IBV_WR_SEND_WITH_IMM
  | IBV_WR_RDMA_READ, IBV_WR_RDMA_READ => true
  | _, _ => false
  end.

Definition IBV_SEND_INLINE : Z := 8.
Definition MLX5_ETH_INLINE_HEADER_SIZE : Z := 18.

Record ibv_sge : Type := mk_sge {
  sge_addr : Z;
  sge_length : Z;
  sge_lkey : Z
}.

Record ibv_send_wr : Type := mk_send_wr {
  next : ptr;
  sg_list : ptr;
  num_sge : Z;
  opcode : ibv_wr_opcode;
  send_flags : Z
}.

Record ibv_recv_wr : Type := mk_recv_wr {
  recv_wr_id : Z;
  recv_next : ptr;
  recv_num_sge : Z
}.

(** The list of descriptors the NIC walks when it is handed [&wrs[start]]:
    it follows [next] until [nullptr]. [fuel] bounds the walk. *)
Fixpoint chain_from {A} (nxt : A -> ptr) (wrs : list A) (fuel : nat) (start : Z)
  : list Z :=
  match fuel with
  | O => []
  | S fuel' =>
      match wrs !! Z.to_nat start with
      | None => []
      | Some wr =>
          start :: match nxt wr with
                   | nullptr => []
                   | elem j => chain_from nxt wrs fuel' j
                   end
      end
  end.

(** ** What the headers of the repository provide

    [raw_transport.h], [msg_buffer.h] and [pkthdr.h] are outside the
    translated file; their constants and helpers are parameters. *)

Class RawTransportH : Type := {
  kDumb : bool;
  kTesting : bool;
  kPostlist : Z;
  kNumRxRingEntries : Z;
  kRecvCQDepth : Z;
  kRQDepth : Z;
  kStridesPerWQE : Z;
  kRecvSlack : Z;
  kMaxDataPerPkt : Z;
  kMaxInline : Z;
  kMagicWrIDForFastRecv : Z;
  sizeof_pkthdr_t : Z;
  (** [offsetof(pkthdr_t, headroom)] *)
  offsetof_headroom : Z;
  cqe_snapshot_t : Type;
  get_cqe_cycle_delta : cqe_snapshot_t -> cqe_snapshot_t -> Z;
  (** [get_signaled_flag()]: from the send counter to the flag and the
      counter's next value. *)
  get_signaled_flag : Z -> Z * Z
}.

Class MsgBufferH : Type := {
  MsgBuffer : Type;
  buf : MsgBuffer -> Z;
  data_size : MsgBuffer -> Z;
  buffer_lkey : MsgBuffer -> Z;
  is_valid : memory -> MsgBuffer -> bool;
  get_pkthdr_0 : MsgBuffer -> Z;
  get_pkthdr_n : MsgBuffer -> Z -> Z;
  get_pkt_size : MsgBuffer -> Z -> Z
}.

(** How the file is built: with or without [NDEBUG], for which byte order. *)
Class Build : Type := {
  NDEBUG : bool;
  host_big_endian : bool
}.

(** Modelled from the spec: the wire header layout of section 6, which the
    missing [eth_hdr_t], [ipv4_hdr_t] and [udp_hdr_t] declare. Ethernet is 14
    bytes, IPv4 20 bytes, UDP 8 bytes; the field offsets are those of the
    standard IPv4 and UDP headers. *)
Definition sizeof_eth_hdr_t : Z := 14.
Definition sizeof_ipv4_hdr_t : Z := 20.
Definition kInetHdrsTotSize : Z := 42.
Definition ipv4_tot_len_off : Z := 2.
Definition ipv4_check_off : Z := 10.
Definition ipv4_dst_ip_off : Z := 16.
Definition udp_len_off : Z := 4.
Definition udp_check_off : Z := 6.

Definition hdr_copy_sz : Z := kInetHdrsTotSize - 2.

(** Modelled from the spec: [get_cqe_cycle_delta] of [raw_transport.h], as
    "delta = (S1 - S0 + R) mod R" with R the receive-ring size. *)
Definition spec_cqe_cycle_delta (R : Z) (S0 S1 : Z) : Z := (S1 - S0 + R) mod R.

Section Datapath.
Context {raw_h : RawTransportH} {msg_h : MsgBufferH} {build : Build}.

(** ** Byte order *)

Definition htons (v : Z) : Z :=
  if host_big_endian then wrap16 v
  else (wrap16 v mod 256) * 256 + wrap16 v / 256.

(** A [uint16_t] store and load in the byte order of the host. *)
Definition store16 (m : memory) (a v : Z) : memory :=
  if host_big_endian then store8 (store8 m a (v / 256)) (a + 1) v
  else store8 (store8 m a v) (a + 1) (v / 256).

Definition load16 (m : memory) (a : Z) : Z :=
  if host_big_endian then m a * 256 + m (a + 1)
  else m a + 256 * m (a + 1).

Definition store32 (m : memory) (a v : Z) : memory :=
  if host_big_endian
  then store8 (store8 (store8 (store8 m a (v / 2 ^ 24)) (a + 1) (v / 2 ^ 16))
                 (a + 2) (v / 2 ^ 8)) (a + 3) v
  else store8 (store8 (store8 (store8 m a v) (a + 1) (v / 2 ^ 8))
                 (a + 2) (v / 2 ^ 16)) (a + 3) (v / 2 ^ 24).

(** ** State *)

Record tx_burst_item_t : Type := mk_item {
  routing_info : Z;
  msg_buffer : MsgBuffer;
  pkt_index : Z;
  drop : bool
}.

Inductive hw_event : Type :=
| ev_post_send (first : Z) (wrs : list ibv_send_wr) (sgl : list (ibv_sge * ibv_sge))
| ev_post_recv_fast (special_wr : ibv_recv_wr)
| ev_post_recv (first : Z) (wrs : list ibv_recv_wr)
| ev_recv_burst (sge_idx : Z)
| ev_poll_cq (num_entries : Z).

(** One [fprintf(stderr, fmt, ret)]. *)
Record log_line : Type := mk_log { log_fmt : string; log_arg : Z }.

Record state : Type := mk_state {
  (* members of RawTransport *)
  send_wr : list ibv_send_wr;
  send_sgl : list (ibv_sge * ibv_sge);
  recv_wr : list ibv_recv_wr;
  nb_tx : Z;
  cqe_idx : Z;
  prev_snapshot : cqe_snapshot_t;
  recv_backlog : Z;
  recv_head : Z;
  recvs_to_post : Z;
  mp_sge_idx : Z;
  (* what the NIC has written into recv_cqe_arr, as snapshot_cqe reads it *)
  recv_cqe_arr : Z -> cqe_snapshot_t;
  (* registered memory holding packet headers and routing info *)
  mem : memory;
  (* submissions handed to the NIC, oldest first *)
  hw : list hw_event;
  (* lines printed on stderr, oldest first *)
  stderr : list log_line
}.

Definition set_send_wr (v : list ibv_send_wr) (s : state) : state :=
  mk_state v (send_sgl s) (recv_wr s) (nb_tx s) (cqe_idx s) (prev_snapshot s)
    (recv_backlog s) (recv_head s) (recvs_to_post s) (mp_sge_idx s)
    (recv_cqe_arr s) (mem s) (hw s) (stderr s).
Definition set_send_sgl (v : list (ibv_sge * ibv_sge)) (s : state) : state :=
  mk_state (send_wr s) v (recv_wr s) (nb_tx s) (cqe_idx s) (prev_snapshot s)
    (recv_backlog s) (recv_head s) (recvs_to_post s) (mp_sge_idx s)
    (recv_cqe_arr s) (mem s) (hw s) (stderr s).
Definition set_recv_wr (v : list ibv_recv_wr) (s : state) : state :=
  mk_state (send_wr s) (send_sgl s) v (nb_tx s) (cqe_idx s) (prev_snapshot s)
    (recv_backlog s) (recv_head s) (recvs_to_post s) (mp_sge_idx s)
    (recv_cqe_arr s) (mem s) (hw s) (stderr s).
Definition set_nb_tx (v : Z) (s : state) : state :=
  mk_state (send_wr s) (send_sgl s) (recv_wr s) v (cqe_idx s) (prev_snapshot s)
    (recv_backlog s) (recv_head s) (recvs_to_post s) (mp_sge_idx s)
    (recv_cqe_arr s) (mem s) (hw s) (stderr s).
Definition set_cqe_idx (v : Z) (s : state) : state :=
  mk_state (send_wr s) (send_sgl s) (recv_wr s) (nb_tx s) v (prev_snapshot s)
    (recv_backlog s) (recv_head s) (recvs_to_post s) (mp_sge_idx s)
    (recv_cqe_arr s) (mem s) (hw s) (stderr s).
Definition set_prev_snapshot (v : cqe_snapshot_t) (s : state) : state :=
  mk_state (send_wr s) (send_sgl s) (recv_wr s) (nb_tx s) (cqe_idx s) v
    (recv_backlog s) (recv_head s) (recvs_to_post s) (mp_sge_idx s)
    (recv_cqe_arr s) (mem s) (hw s) (stderr s).
Definition set_recv_backlog (v : Z) (s : state) : state :=
  mk_state (send_wr s) (send_sgl s) (recv_wr s) (nb_tx s) (cqe_idx s)
    (prev_snapshot s) v (recv_head s) (recvs_to_post s) (mp_sge_idx s)
    (recv_cqe_arr s) (mem s) (hw s) (stderr s).
Definition set_recv_head (v : Z) (s : state) : state :=
  mk_state (send_wr s) (send_sgl s) (recv_wr s) (nb_tx s) (cqe_idx s)
    (prev_snapshot s) (recv_backlog s) v (recvs_to_post s) (mp_sge_idx s)
    (recv_cqe_arr s) (mem s) (hw s) (stderr s).
Definition set_recvs_to_post (v : Z) (s : state) : state :=
  mk_state (send_wr s) (send_sgl s) (recv_wr s) (nb_tx s) (cqe_idx s)
    (prev_snapshot s) (recv_backlog s) (recv_head s) v (mp_sge_idx s)
    (recv_cqe_arr s) (mem s) (hw s) (stderr s).
Definition set_mp_sge_idx (v : Z) (s : state) : state :=
  mk_state (send_wr s) (send_sgl s) (recv_wr s) (nb_tx s) (cqe_idx s)
    (prev_snapshot s) (recv_backlog s) (recv_head s) (recvs_to_post s) v
    (recv_cqe_arr s) (mem s) (hw s) (stderr s).
Definition set_mem (v : memory) (s : state) : state :=
  mk_state (send_wr s) (send_sgl s) (recv_wr s) (nb_tx s) (cqe_idx s)
    (prev_snapshot s) (recv_backlog s) (recv_head s) (recvs_to_post s)
    (mp_sge_idx s) (recv_cqe_arr s) v (hw s) (stderr s).
Definition set_hw (v : list hw_event) (s : state) : state :=
  mk_state (send_wr s) (send_sgl s) (recv_wr s) (nb_tx s) (cqe_idx s)
    (prev_snapshot s) (recv_backlog s) (recv_head s) (recvs_to_post s)
    (mp_sge_idx s) (recv_cqe_arr s) (mem s) v (stderr s).
Definition set_stderr (v : list log_line) (s : state) : state :=
  mk_state (send_wr s) (send_sgl s) (recv_wr s) (nb_tx s) (cqe_idx s)
    (prev_snapshot s) (recv_backlog s) (recv_head s) (recvs_to_post s)
    (mp_sge_idx s) (recv_cqe_arr s) (mem s) (hw s) v.

(** ** The monad of the datapath *)

(** How a call ends. [OutOfBounds] marks an index that names no element of
    its array: the source performs the access unchecked and its behaviour
    from there on is undefined, so the run is followed no further. *)
Inductive outcome (A : Type) : Type :=
| Returned (a : A) (s : state)
| Exited (code : Z) (s : state)
| AssertFailed (expr : string) (s : state)
| OutOfBounds.
Arguments Returned {A} a s.
Arguments Exited {A} code s.
Arguments AssertFailed {A} expr s.
Arguments OutOfBounds {A}.

Definition is_returned {A} (o : outcome A) : bool :=
  match o with Returned _ _ => true | _ => false end.

Definition M (A : Type) : Type := state -> outcome A.

#[export] Instance M_ret : MRet M := fun A a s => Returned a s.
#[export] Instance M_bind : MBind M := fun A B f m s =>
  match m s with
  | Returned a s' => f a s'
  | Exited c s' => Exited c s'
  | AssertFailed e s' => AssertFailed e s'
  | OutOfBounds => OutOfBounds
  end.

Definition gets {A} (f : state -> A) : M A := fun s => Returned (f s) s.
Definition modify (f : state -> state) : M unit := fun s => Returned tt (f s).

(** [assert(e)]: compiled out under [NDEBUG], otherwise aborts when false. *)
Definition assert (e : bool) (expr : string) : M unit := fun s =>
  if NDEBUG || e then Returned tt s else AssertFailed expr s.

Definition fprintf_stderr (fmt : string) (arg : Z) : M unit :=
  modify (fun s => set_stderr (stderr s ++ [mk_log fmt arg]) s).

Definition exit {A} (code : Z) : M A := fun s => Exited code s.

Definition submit (e : hw_event) : M unit :=
  modify (fun s => set_hw (hw s ++ [e]) s).

(** [arr[i]] for reading: out of bounds when [i] names no element. *)
Definition index {A} (arr : state -> list A) (i : Z) : M A := fun s =>
  match arr s !! Z.to_nat i with
  | Some x => Returned x s
  | None => OutOfBounds
  end.

Definition index_const {A} (arr : list A) (i : Z) : M A :=
  index (fun _ => arr) i.

(** [for (size_t i = from; ...; i++) body(i)], [n] iterations. *)
Fixpoint for_loop (n : nat) (from : Z) (body : Z -> M unit) : M unit :=
  match n with
  | O => mret tt
  | S n' => body from ;; for_loop n' (from + 1) body
  end.

(** ** tx_burst *)

Definition write_send_wr (i : Z) (wr : ibv_send_wr) : M unit :=
  modify (fun s => set_send_wr (<[Z.to_nat i := wr]> (send_wr s)) s).

Definition write_send_sgl (i : Z) (sgl : ibv_sge * ibv_sge) : M unit :=
  modify (fun s => set_send_sgl (<[Z.to_nat i := sgl]> (send_sgl s)) s).

Definition call_get_signaled_flag : M Z := fun s =>
  let '(flag, nb) := get_signaled_flag (nb_tx s) in Returned flag (set_nb_tx nb s).

(** Lines 27-30: the single entry of a first packet. *)
Definition first_pkt_sge (item : tx_burst_item_t) : ibv_sge :=
  let mb := msg_buffer item in
  mk_sge (get_pkthdr_0 mb) (wrap32 (get_pkt_size mb 0)) (buffer_lkey mb).

(** Lines 32-35: the flags of a first packet, inline when it is small
    enough. *)
Definition first_pkt_flags (item : tx_burst_item_t) (flag : Z) : Z :=
  if (0 <? kMaxInline) &&
     (sge_length (first_pkt_sge item) <=? add64 kMaxInline MLX5_ETH_INLINE_HEADER_SIZE)
  then Z.lor flag IBV_SEND_INLINE else flag.

(** Lines 41-44: the header entry of a later packet. *)
Definition hdr_sge (item : tx_burst_item_t) : ibv_sge :=
  let mb := msg_buffer item in
  mk_sge (get_pkthdr_n mb (pkt_index item)) (wrap32 sizeof_pkthdr_t)
    (buffer_lkey mb).

(** Lines 46-49: the data entry of a later packet. *)
Definition data_sge (item : tx_burst_item_t) : ibv_sge :=
  let mb := msg_buffer item in
  let offset := mul64 (pkt_index item) kMaxDataPerPkt in
  mk_sge (buf mb + offset)
    (wrap32 (Z.min kMaxDataPerPkt (sub64 (data_size mb) offset)))
    (buffer_lkey mb).

(** The local [pkt_size] (lines 37 and 51; the sum is a [uint32_t] sum). *)
Definition pkt_size_of (item : tx_burst_item_t) : Z :=
  if pkt_index item =? 0 then sge_length (first_pkt_sge item)
  else wrap32 (sge_length (hdr_sge item) + sge_length (data_sge item)).

(** The local [pkthdr] (lines 27 and 41). *)
Definition pkthdr_of (item : tx_burst_item_t) : Z :=
  if pkt_index item =? 0 then get_pkthdr_0 (msg_buffer item)
  else get_pkthdr_n (msg_buffer item) (pkt_index item).

Definition ipv4_hdr_of (item : tx_burst_item_t) : Z :=
  pkthdr_of item + offsetof_headroom + sizeof_eth_hdr_t.

Definition udp_hdr_of (item : tx_burst_item_t) : Z :=
  ipv4_hdr_of item + sizeof_ipv4_hdr_t.

(** Lines 57-71: copy the routing template and patch the two lengths. *)
Definition stamp_headers (item : tx_burst_item_t) : M unit :=
  let pkt_size := pkt_size_of item in
  modify (fun s => set_mem
    (memcpy (mem s) (pkthdr_of item + offsetof_headroom) (routing_info item)
       (Z.to_nat hdr_copy_sz)) s) ;;
  let ipv4_hdr := ipv4_hdr_of item in
  m ← gets mem;
  assert (load16 m (ipv4_hdr + ipv4_check_off) =? 0) "ipv4_hdr->check == 0" ;;
  modify (fun s => set_mem
    (store16 (mem s) (ipv4_hdr + ipv4_tot_len_off)
       (htons (sub64 pkt_size sizeof_eth_hdr_t))) s) ;;
  (if kTesting && drop item
   then modify (fun s => set_mem (store32 (mem s) (ipv4_hdr + ipv4_dst_ip_off) 0) s)
   else mret tt) ;;
  let udp_hdr := udp_hdr_of item in
  m ← gets mem;
  assert (load16 m (udp_hdr + udp_check_off) =? 0) "udp_hdr->check == 0" ;;
  modify (fun s => set_mem
    (store16 (mem s) (udp_hdr + udp_len_off)
       (htons (sub64 (sub64 pkt_size sizeof_eth_hdr_t) sizeof_ipv4_hdr_t))) s).

(** The body of the loop of [tx_burst], for index [i] (lines 8-78). The
    fields of [wr] and [sgl] are written through to [send_wr[i]] and
    [send_sgl[i]]; [LOG_TRACE] changes nothing and is left out. *)
Definition tx_burst_iter (tx_burst_arr : list tx_burst_item_t) (i : Z) : M unit :=
  item ← index_const tx_burst_arr i;
  m ← gets mem;
  assert (is_valid m (msg_buffer item)) "msg_buffer->is_valid()" ;;
  wr ← index send_wr i;
  sgl ← index send_sgl i;
  assert (ptr_eqb (next wr) (elem (i + 1))) "wr.next == &send_wr[i + 1]" ;;
  assert (opcode_eqb (opcode wr) IBV_WR_SEND) "wr.opcode == IBV_WR_SEND" ;;
  assert (ptr_eqb (sg_list wr) (elem i)) "wr.sg_list == sgl" ;;
  flag ← call_get_signaled_flag;
  (if pkt_index item =? 0 then
     write_send_sgl i (first_pkt_sge item, snd sgl) ;;
     write_send_wr i (mk_send_wr (next wr) (sg_list wr) 1 (opcode wr)
                        (first_pkt_flags item flag))
   else
     write_send_sgl i (hdr_sge item, data_sge item) ;;
     write_send_wr i (mk_send_wr (next wr) (sg_list wr) 2 (opcode wr) flag)) ;;
  stamp_headers item.

(** Lines 7-79: the loop over the first [n] items. *)
Definition tx_burst_loop (tx_burst_arr : list tx_burst_item_t) (n : Z) : M unit :=
  for_loop (Z.to_nat n) 0 (tx_burst_iter tx_burst_arr).

Definition set_next (p : ptr) (wr : ibv_send_wr) : ibv_send_wr :=
  mk_send_wr p (sg_list wr) (num_sge wr) (opcode wr) (send_flags wr).

Definition ibv_post_send_failed : string :=
  "eRPC: Fatal error. ibv_post_send failed. ret = %d\n".

(** [ret] is what [ibv_post_send] answers. *)
Definition tx_burst (tx_burst_arr : list tx_burst_item_t) (num_pkts ret : Z)
  : M unit :=
  tx_burst_loop tx_burst_arr num_pkts ;;
  last ← index send_wr (sub64 num_pkts 1);
  write_send_wr (sub64 num_pkts 1) (set_next nullptr last) ;;
  wrs ← gets send_wr;
  sgls ← gets send_sgl;
  submit (ev_post_send 0 wrs sgls) ;;
  assert (ret =? 0) "ret == 0" ;;
  (if ret =? 0 then mret tt
   else fprintf_stderr ibv_post_send_failed ret ;;
        exit (-1)) ;;
  last ← index send_wr (sub64 num_pkts 1);
  write_send_wr (sub64 num_pkts 1) (set_next (elem num_pkts) last).

Definition tx_flush : M unit := mret tt.

(** ** What one iteration of [tx_burst] leaves behind *)

Definition iter_wr (item : tx_burst_item_t) (flag : Z) (wr : ibv_send_wr)
  : ibv_send_wr :=
  if pkt_index item =? 0
  then mk_send_wr (next wr) (sg_list wr) 1 (opcode wr) (first_pkt_flags item flag)
  else mk_send_wr (next wr) (sg_list wr) 2 (opcode wr) flag.

Definition iter_sgl (item : tx_burst_item_t) (sgl : ibv_sge * ibv_sge)
  : ibv_sge * ibv_sge :=
  if pkt_index item =? 0 then (first_pkt_sge item, snd sgl)
  else (hdr_sge item, data_sge item).

Definition iter_mem (item : tx_burst_item_t) (m : memory) : memory :=
  let m1 := memcpy m (pkthdr_of item + offsetof_headroom) (routing_info item)
              (Z.to_nat hdr_copy_sz) in
  let m2 := store16 m1 (ipv4_hdr_of item + ipv4_tot_len_off)
              (htons (sub64 (pkt_size_of item) sizeof_eth_hdr_t)) in
  let m3 := if kTesting && drop item
            then store32 m2 (ipv4_hdr_of item + ipv4_dst_ip_off) 0 else m2 in
  store16 m3 (udp_hdr_of item + udp_len_off)
    (htons (sub64 (sub64 (pkt_size_of item) sizeof_eth_hdr_t) sizeof_ipv4_hdr_t)).

Definition iter_state (i : Z) (item : tx_burst_item_t) (wr : ibv_send_wr)
  (sgl : ibv_sge * ibv_sge) (s : state) : state :=
  let '(flag, nb) := get_signaled_flag (nb_tx s) in
  set_mem (iter_mem item (mem s))
    (set_send_wr (<[Z.to_nat i := iter_wr item flag wr]> (send_wr s))
       (set_send_sgl (<[Z.to_nat i := iter_sgl item sgl]> (send_sgl s))
          (set_nb_tx nb s))).

(** ** Well-formedness of the send descriptor set *)

(** [send_wr] has [kPostlist + 1] descriptors and [send_sgl] has [kPostlist]
    rows, as [raw_transport.h] declares them ("+1 is valid", line 16). *)
Definition tx_state_ok (s : state) : Prop :=
  Z.of_nat (length (send_wr s)) = kPostlist + 1 /\
  Z.of_nat (length (send_sgl s)) = kPostlist.

(** [descriptor[i].next == &descriptor[i+1]] below the last descriptor. *)
Definition chain_intact (wrs : list ibv_send_wr) : Prop :=
  forall i wr, 0 <= i -> wrs !! Z.to_nat i = Some wr ->
    i + 1 < Z.of_nat (length wrs) -> next wr = elem (i + 1).

Fixpoint chain_intactb (i : Z) (wrs : list ibv_send_wr) : bool :=
  match wrs with
  | [] => true
  | wr :: rest =>
      match rest with
      | [] => true
      | _ :: _ => ptr_eqb (next wr) (elem (i + 1)) && chain_intactb (i + 1) rest
      end
  end.

(** The constants of [tx_burst]: [size_t] values, and a header plus a full
    data chunk fit a [uint32_t] length. *)
Definition tx_consts_ok : Prop :=
  0 <= kPostlist /\ kPostlist + 1 < 2 ^ 64 /\
  is_size_t kMaxDataPerPkt /\ 0 <= sizeof_pkthdr_t /\
  sizeof_pkthdr_t + kMaxDataPerPkt < 2 ^ 32.

(** Everything [tx_burst]'s loop does not own. *)
Definition tx_frame (s s' : state) : Prop :=
  recv_wr s' = recv_wr s /\ cqe_idx s' = cqe_idx s /\
  prev_snapshot s' = prev_snapshot s /\ recv_backlog s' = recv_backlog s /\
  recv_head s' = recv_head s /\ recvs_to_post s' = recvs_to_post s /\
  mp_sge_idx s' = mp_sge_idx s /\ recv_cqe_arr s' = recv_cqe_arr s /\
  hw s' = hw s /\ stderr s' = stderr s.

(** ** Well-formedness for [post_recvs] *)

(** The pending count at which [post_recvs] notifies the NIC. *)
Definition post_threshold : Z := if kDumb then kStridesPerWQE else kRecvSlack.

(** The receive descriptors are linked into a ring of [kRQDepth]. *)
Definition recv_ring_ok (s : state) : Prop :=
  Z.of_nat (length (recv_wr s)) = kRQDepth /\
  forall i wr, recv_wr s !! i = Some wr ->
    recv_next wr = elem ((Z.of_nat i + 1) mod kRQDepth).

(** ** rx_burst *)

Definition rx_burst (poll_ret : Z) : M Z :=
  if kDumb then
    cur_snapshot ← gets (fun s => recv_cqe_arr s (cqe_idx s));
    prev ← gets prev_snapshot;
    let delta := get_cqe_cycle_delta prev cur_snapshot in
    if (delta =? 0) || (delta >=? kNumRxRingEntries) then mret 0
    else
      modify (fun s => set_recv_backlog (add64 (recv_backlog s) delta) s) ;;
      backlog ← gets recv_backlog;
      let comps_clamped := if backlog <? kPostlist then backlog else kPostlist in
      modify (fun s => set_recv_backlog (sub64 (recv_backlog s) comps_clamped) s) ;;
      for_loop (Z.to_nat comps_clamped) 0 (fun _ =>
        (* __builtin_prefetch of the slot at recv_head: no effect on state *)
        modify (fun s =>
          set_recv_head (add64 (recv_head s) 1 mod kNumRxRingEntries) s)) ;;
      modify (fun s => set_cqe_idx (add64 (cqe_idx s) 1 mod kRecvCQDepth) s) ;;
      modify (set_prev_snapshot cur_snapshot) ;;
      mret comps_clamped
  else
    submit (ev_poll_cq kPostlist) ;;
    assert (poll_ret >=? 0) "ret >= 0" ;;
    mret (wrap64 poll_ret).

(** ** post_recvs *)

Definition post_recv_fast_failed : string :=
  "eRPC IBTransport: Post RECV (fast) error %d\n".
Definition post_recv_normal_failed : string :=
  "eRPC IBTransport: Post RECV (normal) error %d\n".

(** Lines 165-190: the RECVs posted are [first_wr] through [last_wr]. *)
Definition post_recvs_normal (ret : Z) : M unit :=
  first_wr_i ← gets recv_head;
  pending ← gets recvs_to_post;
  let last_wr_i := add64 first_wr_i (sub64 pending 1) in
  let last_wr_i :=
    if last_wr_i >=? kRQDepth then sub64 last_wr_i kRQDepth else last_wr_i in
  _ ← index recv_wr first_wr_i;           (* first_wr, which the NIC reads *)
  last_wr ← index recv_wr last_wr_i;
  let temp_wr := recv_next last_wr in
  modify (fun s => set_recv_wr
    (<[Z.to_nat last_wr_i := mk_recv_wr (recv_wr_id last_wr) nullptr
                               (recv_num_sge last_wr)]> (recv_wr s)) s) ;;
  wrs ← gets recv_wr;
  submit (ev_post_recv first_wr_i wrs) ;;
  (if ret =? 0 then mret tt
   else fprintf_stderr post_recv_normal_failed ret ;;
        exit (-1)) ;;
  last_wr ← index recv_wr last_wr_i;
  modify (fun s => set_recv_wr
    (<[Z.to_nat last_wr_i := mk_recv_wr (recv_wr_id last_wr) temp_wr
                               (recv_num_sge last_wr)]> (recv_wr s)) s) ;;
  modify (set_recv_head last_wr_i) ;;
  modify (fun s => set_recv_head (add64 (recv_head s) 1 mod kRQDepth) s) ;;
  modify (set_recvs_to_post 0).

Definition post_recvs_with (use_fast_recv : bool) (num_recvs ret : Z) : M unit :=
  assert (num_recvs <=? kNumRxRingEntries) "num_recvs <= kNumRxRingEntries" ;;
  modify (fun s => set_recvs_to_post (add64 (recvs_to_post s) num_recvs) s) ;;
  pending ← gets recvs_to_post;
  if kDumb then
    if pending <? kStridesPerWQE then mret tt
    else
      sge_idx ← gets mp_sge_idx;
      submit (ev_recv_burst sge_idx) ;;
      assert (ret =? 0) "ret == 0" ;;
      modify (fun s => set_mp_sge_idx (add64 (mp_sge_idx s) 1 mod kRQDepth) s) ;;
      modify (fun s => set_recvs_to_post (sub64 (recvs_to_post s) kStridesPerWQE) s)
  else
    if pending <? kRecvSlack then mret tt
    else if use_fast_recv then
      let special_wr := mk_recv_wr kMagicWrIDForFastRecv nullptr (to_int pending) in
      submit (ev_post_recv_fast special_wr) ;;
      (if ret =? 0 then mret tt
       else fprintf_stderr post_recv_fast_failed ret ;;
            exit (-1)) ;;
      modify (set_recvs_to_post 0)
    else post_recvs_normal ret.

(** [bool use_fast_recv = true;] *)
Definition use_fast_recv : bool := true.

Definition post_recvs (num_recvs ret : Z) : M unit :=
  post_recvs_with use_fast_recv num_recvs ret.

(** A run of [post_recvs] calls, each with a successful post. *)
Fixpoint post_recvs_seq (calls : list Z) : M unit :=
  match calls with
  | [] => mret tt
  | num_recvs :: rest => post_recvs num_recvs 0 ;; post_recvs_seq rest
  end.

(** ** Well-formedness of the constants and of the receive state *)

(** The constants of [rx_burst] are [size_t] values. *)
Definition rx_consts_ok : Prop :=
  is_size_t kPostlist /\ is_size_t kNumRxRingEntries /\ is_size_t kRecvCQDepth.

(** The ring indices name slots of their rings; the backlog is a [size_t]. *)
Definition rx_state_ok (s : state) : Prop :=
  0 <= recv_head s < kNumRxRingEntries /\
  0 <= cqe_idx s < kRecvCQDepth /\
  is_size_t (recv_backlog s).

(** Everything [rx_burst] does not own. *)
Definition rx_frame (s s' : state) : Prop :=
  send_wr s' = send_wr s /\ send_sgl s' = send_sgl s /\ recv_wr s' = recv_wr s /\
  nb_tx s' = nb_tx s /\ recvs_to_post s' = recvs_to_post s /\
  mp_sge_idx s' = mp_sge_idx s /\ mem s' = mem s /\ hw s' = hw s /\
  stderr s' = stderr s.

(** ** Vocabulary for the properties of whole calls *)

(** The send counter after one more [get_signaled_flag()]. *)
Definition sig_next (nb : Z) : Z := snd (get_signaled_flag nb).

(** The flag the [k]-th call of [get_signaled_flag()] returns, counting from
    a send counter [nb]. *)
Definition sig_flag (nb : Z) (k : nat) : Z :=
  fst (get_signaled_flag (Nat.iter k sig_next nb)).

(** The bytes [memcpy] writes for [item]: the first [hdr_copy_sz] bytes of
    its header's headroom. *)
Definition in_headroom (item : tx_burst_item_t) (x : Z) : Prop :=
  pkthdr_of item + offsetof_headroom <= x
  < pkthdr_of item + offsetof_headroom + hdr_copy_sz.

(** How many receive buffers a submission hands to the NIC. *)
Definition posted_count (e : hw_event) : Z :=
  match e with
  | ev_post_recv_fast special_wr => recv_num_sge special_wr
  | ev_recv_burst _ => kStridesPerWQE
  | ev_post_recv first wrs =>
      Z.of_nat (length (chain_from recv_next wrs (length wrs) first))
  | ev_post_send _ _ _ | ev_poll_cq _ => 0
  end.

Definition posted_total (evs : list hw_event) : Z :=
  foldr Z.add 0 (posted_count <$> evs).

(** A computation that never exits, stops at an assertion only in a build
    that has them, and leaves the NIC trace and stderr as they are. *)
Definition keeps_trace {A} (m : M A) : Prop :=
  forall s,
    match m s with
    | Returned _ s' => hw s' = hw s /\ stderr s' = stderr s
    | AssertFailed _ s' => NDEBUG = false /\ hw s' = hw s /\ stderr s' = stderr s
    | Exited _ _ => False
    | OutOfBounds => True
    end.

End Datapath.

Arguments Returned {_ A} a s.
Arguments Exited {_ A} code s.
Arguments AssertFailed {_ A} expr s.
Arguments OutOfBounds {_ A}.

(** * Concrete configurations

    Small instances of the three interfaces, for running the datapath. *)

Record example_buffer : Type := mk_buffer {
  eb_buf : Z;
  eb_data_size : Z;
  eb_max_data_size : Z;
  eb_lkey : Z
}.

(** A 56-byte packet header and 44 data bytes per packet; headers of later
    packets follow the data area. *)
Definition example_msg_h : MsgBufferH := {|
  MsgBuffer := example_buffer;
  buf := eb_buf;
  data_size := eb_data_size;
  buffer_lkey := eb_lkey;
  is_valid := fun _ b => negb (eb_buf b =? 0);
  get_pkthdr_0 := fun b => eb_buf b - 56;
  get_pkthdr_n := fun b n => eb_buf b + eb_max_data_size b + (n - 1) * 56;
  get_pkt_size := fun b i => 56 + Z.min 44 (sub64 (eb_data_size b) (mul64 i 44))
|}.

(** Assertions enabled, little-endian host. *)
Definition example_build : Build := {| NDEBUG := false; host_big_endian := false |}.

(** The same host, built with [NDEBUG]. *)
Definition example_release_build : Build :=
  {| NDEBUG := true; host_big_endian := false |}.

(** A big-endian host, assertions compiled in. *)
Definition example_big_endian_build : Build :=
  {| NDEBUG := false; host_big_endian := true |}.

Definition example_h (dumb : bool) : RawTransportH := {|
  kDumb := dumb;
  kTesting := true;
  kPostlist := 4;
  kNumRxRingEntries := 16;
  kRecvCQDepth := 8;
  kRQDepth := 8;
  kStridesPerWQE := 4;
  kRecvSlack := 4;
  kMaxDataPerPkt := 44;
  kMaxInline := 60;
  kMagicWrIDForFastRecv := 3185;
  sizeof_pkthdr_t := 56;
  offsetof_headroom := 0;
  cqe_snapshot_t := Z;
  get_cqe_cycle_delta := spec_cqe_cycle_delta 16;
  get_signaled_flag := fun nb => (if nb mod 4 =? 0 then 2 else 0, add64 nb 1)
|}.

(** The transport right after construction: descriptors linked, counters
    zero, memory zeroed. [progress] is the snapshot the NIC shows in every
    slot of [recv_cqe_arr]. *)
Definition example_state (dumb : bool) (progress : Z) : @state (example_h dumb) :=
  @mk_state (example_h dumb)
    ((fun i => mk_send_wr (elem (i + 1)) (elem i) 0 IBV_WR_SEND 0) <$> seqZ 0 5)
    (replicate 4 (mk_sge 0 0 0, mk_sge 0 0 0))
    ((fun i => mk_recv_wr i (elem ((i + 1) mod 8)) 1) <$> seqZ 0 8)
    0 0 0 0 0 0 0
    (fun _ => progress)
    (fun _ => 0)
    [] [].

(** The message of the end-to-end scenario of the specification: 48 data
    bytes at address 1000, sent as a 100-byte and a 60-byte packet. *)
Definition example_msg : example_buffer := mk_buffer 1000 48 48 7.

Definition example_items : list (@tx_burst_item_t example_msg_h) :=
  [ @mk_item example_msg_h 5000 example_msg 0 false;
    @mk_item example_msg_h 5000 example_msg 1 false ].

(** The two modes of the example configuration. *)
Definition direct_h : RawTransportH := example_h false.
Definition striding_h : RawTransportH := example_h true.

(** Direct-completion mode with 3 receives pending and the head at slot 6. *)
Definition example_pending_state : @state (example_h false) :=
  set_recv_head 6 (set_recvs_to_post 3 (example_state false 0)).

(** Memory holding a routing template at address 5000: byte [j] of its 40
    bytes is [j + 1], except the IPv4 checksum bytes 24 and 25, which are
    zero. Everything else is zero. *)
Definition example_template : memory := fun a =>
  if (5000 <=? a) && (a <? 5040) && negb ((a =? 5024) || (a =? 5025))
  then a - 4999 else 0.

Definition example_routed_state : @state (example_h false) :=
  set_mem example_template (example_state false 0).

(** The two packets of [example_msg], the second one marked to be dropped. *)
Definition example_drop_items : list (@tx_burst_item_t example_msg_h) :=
  [ @mk_item example_msg_h 5000 example_msg 0 false;
    @mk_item example_msg_h 5000 example_msg 1 true ].

(** Five single-packet sends: one more than [kPostlist = 4]. *)
Definition example_oversize_items : list (@tx_burst_item_t example_msg_h) :=
  replicate 5 (@mk_item example_msg_h 5000 example_msg 0 false).

(** * Proofs *)

Section Properties.
Context {raw_h : RawTransportH} {msg_h : MsgBufferH} {build : Build}.

Lemma wrap64_small z : 0 <= z < 2 ^ 64 -> wrap64 z = z.
Proof. intros Hz. unfold wrap64. apply Z.mod_small. exact Hz. Qed.

Lemma wrap64_range z : 0 <= wrap64 z < 2 ^ 64.
Proof. unfold wrap64. apply Z.mod_pos_bound. lia. Qed.

Lemma add64_small a b : 0 <= a -> 0 <= b -> a + b < 2 ^ 64 -> add64 a b = a + b.
Proof. intros. unfold add64. apply wrap64_small. lia. Qed.

Lemma sub64_small a b : 0 <= b <= a -> a < 2 ^ 64 -> sub64 a b = a - b.
Proof. intros. unfold sub64. apply wrap64_small. lia. Qed.

Lemma stale_delta_false d R : 0 < d < R -> (d =? 0) || (d >=? R) = false.
Proof.
  intros Hd. rewrite Z.geb_leb.
  destruct (Z.eqb_spec d 0); [lia|].
  destruct (Z.leb_spec R d); [lia|]. reflexivity.
Qed.

Lemma stale_delta_true d R : d = 0 \/ R <= d -> (d =? 0) || (d >=? R) = true.
Proof.
  intros Hd. rewrite Z.geb_leb.
  destruct (Z.eqb_spec d 0); [reflexivity|].
  destruct (Z.leb_spec R d); [reflexivity|lia].
Qed.

(** The head-advancing loop of [rx_burst]: [n] steps of one slot each. *)
Lemma recv_head_loop (n : nat) (from : Z) (s : state) :
  0 <= recv_head s < kNumRxRingEntries ->
  kNumRxRingEntries < 2 ^ 64 ->
  for_loop n from (fun _ =>
    modify (fun s => set_recv_head (add64 (recv_head s) 1 mod kNumRxRingEntries) s)) s
  = Returned tt
      (set_recv_head ((recv_head s + Z.of_nat n) mod kNumRxRingEntries) s).
Proof.
  revert from s. induction n as [|n IH]; intros from s Hh HR.
  - cbn [for_loop]. rewrite Z.add_0_r, Z.mod_small by lia.
    destruct s; reflexivity.
  - cbn [for_loop]. unfold mbind, M_bind, modify at 1.
    rewrite IH; cbn [recv_head set_recv_head]; [|apply Z.mod_pos_bound; lia|lia].
    rewrite add64_small by lia.
    rewrite Zplus_mod_idemp_l.
    replace (recv_head s + 1 + Z.of_nat n) with (recv_head s + Z.of_nat (S n)) by lia.
    reflexivity.
Qed.

(** A poll in emulated mode that is not stale, written out. *)
Lemma rx_burst_dumb_run (poll_ret : Z) (s : state) :
  let cur := recv_cqe_arr s (cqe_idx s) in
  let d := get_cqe_cycle_delta (prev_snapshot s) cur in
  let total := add64 (recv_backlog s) d in
  let n := Z.min total kPostlist in
  kDumb = true ->
  rx_consts_ok ->
  rx_state_ok s ->
  (d =? 0) || (d >=? kNumRxRingEntries) = false ->
  0 <= n <= total /\ total < 2 ^ 64 /\
  rx_burst poll_ret s =
    Returned n
      (set_prev_snapshot cur
         (set_cqe_idx ((cqe_idx s + 1) mod kRecvCQDepth)
            (set_recv_head ((recv_head s + n) mod kNumRxRingEntries)
               (set_recv_backlog (total - n) s)))).
Proof.
  intros cur d total n Hdumb (HP & HR & HD) (Hh & Hc & Hb) Hd.
  unfold is_size_t in *.
  assert (Ht : 0 <= total < 2 ^ 64) by apply wrap64_range.
  assert (Hn : 0 <= n <= total) by (unfold n; lia).
  assert (Hcomps : (if total <? kPostlist then total else kPostlist) = n).
  { unfold n. destruct (Z.ltb_spec total kPostlist); lia. }
  split; [exact Hn|]. split; [lia|].
  unfold rx_burst. rewrite Hdumb.
  unfold mbind, M_bind, gets. fold cur. fold d. rewrite Hd.
  unfold modify at 1. cbn [recv_backlog set_recv_backlog]. fold total.
  rewrite Hcomps.
  unfold modify at 1.
  rewrite recv_head_loop; cbn [recv_head set_recv_backlog set_recv_head]; [|lia|lia].
  unfold modify, mret, M_ret.
  cbn. rewrite Z2Nat.id by lia.
  rewrite (sub64_small total n) by lia.
  rewrite (add64_small (cqe_idx s) 1) by lia.
  reflexivity.
Qed.

(** X9. In emulated mode [rx_burst] always returns, reports at most
    [kPostlist] completions, and keeps the ring indices inside their rings
    and the backlog a [size_t], whatever [get_cqe_cycle_delta] answers. *)
Lemma rx_burst_keeps_state_ok (poll_ret : Z) (s : state) :
  kDumb = true ->
  rx_consts_ok ->
  rx_state_ok s ->
  exists n s',
    rx_burst poll_ret s = Returned n s' /\
    0 <= n <= kPostlist /\
    rx_state_ok s'.
Proof.
  intros Hdumb Hconsts Hok.
  set (d := get_cqe_cycle_delta (prev_snapshot s) (recv_cqe_arr s (cqe_idx s))).
  destruct ((d =? 0) || (d >=? kNumRxRingEntries)) eqn:Hstale.
  - exists 0, s. split.
    + unfold rx_burst. rewrite Hdumb. unfold mbind, M_bind, gets.
      fold d. rewrite Hstale. reflexivity.
    + split; [|exact Hok]. destruct Hconsts as ((? & ?) & _). lia.
  - destruct (rx_burst_dumb_run poll_ret s Hdumb Hconsts Hok Hstale)
      as (Hn & Ht & Hrun).
    eexists _, _. split; [exact Hrun|].
    destruct Hconsts as (HP & HR & HD). destruct Hok as (Hh & Hc & Hb).
    unfold is_size_t in *. split; [lia|].
    unfold rx_state_ok, is_size_t. cbn.
    split; [apply Z.mod_pos_bound; lia|].
    split; [apply Z.mod_pos_bound; lia|]. lia.
Qed.

(** C4. In emulated cycle-counter mode ([kDumb]), a poll whose cyclic delta
    [d] lies strictly between 0 and the receive-ring size adds [d] to the
    backlog (a [size_t] sum, the plain sum whenever that fits in 64 bits),
    returns the minimum of that total and [kPostlist], leaves the total minus
    the returned count as the new backlog, advances [recv_head] by the
    returned count modulo the ring size, advances [cqe_idx] by one modulo
    [kRecvCQDepth], and stores the current snapshot as the previous one;
    nothing else changes. *)
Theorem rx_burst_emulated_progress (poll_ret : Z) (s : state) :
  let cur := recv_cqe_arr s (cqe_idx s) in
  let d := get_cqe_cycle_delta (prev_snapshot s) cur in
  let total := add64 (recv_backlog s) d in
  let n := Z.min total kPostlist in
  kDumb = true ->
  rx_consts_ok ->
  rx_state_ok s ->
  0 < d < kNumRxRingEntries ->
  exists s',
    rx_burst poll_ret s = Returned n s' /\
    (recv_backlog s + d < 2 ^ 64 -> total = recv_backlog s + d) /\
    0 <= n <= total /\
    recv_backlog s' = total - n /\
    recv_head s' = (recv_head s + n) mod kNumRxRingEntries /\
    cqe_idx s' = (cqe_idx s + 1) mod kRecvCQDepth /\
    prev_snapshot s' = cur /\
    recv_cqe_arr s' = recv_cqe_arr s /\
    rx_frame s s'.
Proof.
  intros cur d total n Hdumb Hconsts Hok Hd.
  destruct (rx_burst_dumb_run poll_ret s Hdumb Hconsts Hok
              (stale_delta_false _ _ Hd)) as (Hn & Ht & Hrun).
  eexists. split; [exact Hrun|].
  destruct Hok as (_ & _ & Hb). unfold is_size_t in Hb.
  split.
  { intros Hfit. unfold total. apply add64_small; fold d; lia. }
  split; [exact Hn|].
  unfold rx_frame. cbn. repeat split.
Qed.

(** C5. In emulated cycle-counter mode, a poll whose cyclic delta is zero or
    at least the receive-ring size returns 0 and leaves the whole state as it
    was: head, backlog, previous snapshot and counter-slot index included. *)
Theorem rx_burst_emulated_stale (poll_ret : Z) (s : state) :
  let d := get_cqe_cycle_delta (prev_snapshot s) (recv_cqe_arr s (cqe_idx s)) in
  kDumb = true ->
  d = 0 \/ kNumRxRingEntries <= d ->
  rx_burst poll_ret s = Returned 0 s.
Proof.
  intros d Hdumb Hd. unfold rx_burst. rewrite Hdumb.
  unfold mbind, M_bind, gets. fold d.
  rewrite (stale_delta_true d kNumRxRingEntries Hd). reflexivity.
Qed.


(** ** One iteration of [tx_burst] *)

Lemma assert_cases (e : bool) (expr : string) (s : state) :
  assert e expr s = Returned tt s \/
  (NDEBUG = false /\ assert e expr s = AssertFailed expr s).
Proof. unfold assert. destruct NDEBUG, e; cbn; auto. Qed.

Lemma stamp_headers_spec (item : tx_burst_item_t) (s : state) :
  stamp_headers item s = Returned tt (set_mem (iter_mem item (mem s)) s) \/
  (NDEBUG = false /\ exists e s', stamp_headers item s = AssertFailed e s').
Proof.
  unfold stamp_headers, iter_mem, mbind, M_bind, modify, gets, mret, M_ret.
  lazymatch goal with |- context [@assert _ _ ?e ?x ?st] =>
    destruct (assert_cases e x st) as [-> | [Hnd ->]]; [|right; eauto] end.
  destruct (kTesting && drop item).
  - lazymatch goal with |- context [@assert _ _ ?e ?x ?st] =>
      destruct (assert_cases e x st) as [-> | [Hnd ->]]; [|right; eauto] end.
    left. destruct s; reflexivity.
  - lazymatch goal with |- context [@assert _ _ ?e ?x ?st] =>
      destruct (assert_cases e x st) as [-> | [Hnd ->]]; [|right; eauto] end.
    left. destruct s; reflexivity.
Qed.

Ltac assert_step :=
  lazymatch goal with
  | |- context [@assert _ _ ?e ?x ?st] =>
      destruct (assert_cases e x st) as [-> | [Hnd ->]];
      cbv beta iota; [|right; eauto]
  end.

Lemma tx_burst_iter_spec (arr : list tx_burst_item_t) (i : Z) (s : state)
    (item : tx_burst_item_t) (wr : ibv_send_wr) (sgl : ibv_sge * ibv_sge) :
  arr !! Z.to_nat i = Some item ->
  send_wr s !! Z.to_nat i = Some wr ->
  send_sgl s !! Z.to_nat i = Some sgl ->
  tx_burst_iter arr i s = Returned tt (iter_state i item wr sgl s) \/
  (NDEBUG = false /\ exists e s', tx_burst_iter arr i s = AssertFailed e s').
Proof.
  intros Hitem Hwr Hsgl.
  unfold tx_burst_iter, index_const, index, iter_state, iter_wr, iter_sgl,
    first_pkt_flags, call_get_signaled_flag, write_send_sgl, write_send_wr,
    modify, gets, mbind, M_bind, mret, M_ret.
  rewrite Hitem. cbv beta iota.
  assert_step. rewrite Hwr, Hsgl. cbv beta iota.
  assert_step. assert_step. assert_step.
  destruct (get_signaled_flag (nb_tx s)) as [flag nb].
  destruct (pkt_index item =? 0); cbv beta iota.
  - lazymatch goal with |- context [stamp_headers item ?st] =>
      destruct (stamp_headers_spec item st) as [-> | (Hnd & e & s' & ->)];
        [left|right; eauto] end.
    reflexivity.
  - lazymatch goal with |- context [stamp_headers item ?st] =>
      destruct (stamp_headers_spec item st) as [-> | (Hnd & e & s' & ->)];
        [left|right; eauto] end.
    reflexivity.
Qed.

Lemma tx_burst_iter_oob (arr : list tx_burst_item_t) (i : Z) (s s' : state) :
  tx_burst_iter arr i s = Returned tt s' ->
  is_Some (arr !! Z.to_nat i) /\ is_Some (send_wr s !! Z.to_nat i) /\
  is_Some (send_sgl s !! Z.to_nat i).
Proof.
  unfold tx_burst_iter, index_const, index, gets, mbind, M_bind.
  destruct (arr !! Z.to_nat i); [|discriminate].
  destruct (assert _ _ s) as [[] s1| | |] eqn:Ha; try discriminate.
  assert (s1 = s) as ->.
  { unfold assert in Ha. destruct (NDEBUG || _); congruence. }
  destruct (send_wr s !! Z.to_nat i); [|discriminate].
  destruct (send_sgl s !! Z.to_nat i); [|discriminate].
  intros _. repeat split; eauto.
Qed.

Lemma tx_burst_iter_inv (arr : list tx_burst_item_t) (i : Z) (s s' : state) :
  tx_burst_iter arr i s = Returned tt s' ->
  exists item wr sgl,
    arr !! Z.to_nat i = Some item /\
    send_wr s !! Z.to_nat i = Some wr /\
    send_sgl s !! Z.to_nat i = Some sgl /\
    s' = iter_state i item wr sgl s.
Proof.
  intros Hret.
  destruct (tx_burst_iter_oob arr i s s' Hret)
    as ([item Hitem] & [wr Hwr] & [sgl Hsgl]).
  exists item, wr, sgl. repeat split; try assumption.
  destruct (tx_burst_iter_spec arr i s item wr sgl Hitem Hwr Hsgl)
    as [Hok | (_ & e & s'' & Hbad)]; congruence.
Qed.

Lemma next_iter_wr (item : tx_burst_item_t) (flag : Z) (wr : ibv_send_wr) :
  next (iter_wr item flag wr) = next wr.
Proof. unfold iter_wr. destruct (pkt_index item =? 0); reflexivity. Qed.

Lemma tx_frame_refl (s : state) : tx_frame s s.
Proof. unfold tx_frame. repeat split. Qed.

Lemma tx_frame_trans (s1 s2 s3 : state) :
  tx_frame s1 s2 -> tx_frame s2 s3 -> tx_frame s1 s3.
Proof. unfold tx_frame. intuition congruence. Qed.

Lemma iter_state_fields (i : Z) (item : tx_burst_item_t) (wr : ibv_send_wr)
    (sgl : ibv_sge * ibv_sge) (s : state) :
  exists flag,
    send_wr (iter_state i item wr sgl s)
      = <[Z.to_nat i := iter_wr item flag wr]> (send_wr s) /\
    send_sgl (iter_state i item wr sgl s)
      = <[Z.to_nat i := iter_sgl item sgl]> (send_sgl s) /\
    mem (iter_state i item wr sgl s) = iter_mem item (mem s) /\
    tx_frame s (iter_state i item wr sgl s).
Proof.
  unfold iter_state. destruct (get_signaled_flag (nb_tx s)) as [flag nb].
  exists flag. unfold tx_frame. cbn. repeat split.
Qed.

Lemma for_loop_S (n : nat) (from : Z) (body : Z -> M unit) (s : state) :
  for_loop (S n) from body s =
  match body from s with
  | Returned _ s1 => for_loop n (from + 1) body s1
  | Exited c s1 => Exited c s1
  | AssertFailed e s1 => AssertFailed e s1
  | OutOfBounds => OutOfBounds
  end.
Proof. reflexivity. Qed.

(** What the loop of [tx_burst] establishes for the descriptors it visits,
    and what it leaves alone. *)
Lemma tx_loop_inv (arr : list tx_burst_item_t) (n : nat) :
  forall (from : Z) (s s' : state),
  0 <= from ->
  for_loop n from (tx_burst_iter arr) s = Returned tt s' ->
  length (send_wr s') = length (send_wr s) /\
  length (send_sgl s') = length (send_sgl s) /\
  next <$> send_wr s' = next <$> send_wr s /\
  tx_frame s s' /\
  (forall k, from <= k < from + Z.of_nat n ->
     exists item flag wr0 sgl0,
       arr !! Z.to_nat k = Some item /\
       send_wr s !! Z.to_nat k = Some wr0 /\
       send_sgl s !! Z.to_nat k = Some sgl0 /\
       send_wr s' !! Z.to_nat k = Some (iter_wr item flag wr0) /\
       send_sgl s' !! Z.to_nat k = Some (iter_sgl item sgl0)) /\
  (forall k, 0 <= k -> ~ (from <= k < from + Z.of_nat n) ->
     send_wr s' !! Z.to_nat k = send_wr s !! Z.to_nat k /\
     send_sgl s' !! Z.to_nat k = send_sgl s !! Z.to_nat k).
Proof.
  induction n as [|n IH]; intros from s s' Hfrom Hrun.
  - cbn in Hrun. injection Hrun as <-.
    repeat split; auto using tx_frame_refl. intros k Hk. lia.
  - rewrite for_loop_S in Hrun.
    destruct (tx_burst_iter arr from s) as [[] s1| | |] eqn:Hiter; try discriminate.
    apply tx_burst_iter_inv in Hiter
      as (item & wr & sgl & Hitem & Hwr & Hsgl & ->).
    destruct (iter_state_fields from item wr sgl s)
      as (flag & Ewr & Esgl & _ & Hfr1).
    set (s1 := iter_state from item wr sgl s) in *.
    destruct (IH (from + 1) s1 s' ltac:(lia) Hrun)
      as (Lwr & Lsgl & Nx & Hfr & Hin & Hout).
    assert (Hlt_wr : (Z.to_nat from < length (send_wr s))%nat)
      by (eapply lookup_lt_Some; eauto).
    assert (Hlt_sgl : (Z.to_nat from < length (send_sgl s))%nat)
      by (eapply lookup_lt_Some; eauto).
    split; [rewrite Lwr, Ewr; apply length_insert|].
    split; [rewrite Lsgl, Esgl; apply length_insert|].
    split.
    { rewrite Nx, Ewr, list_fmap_insert, next_iter_wr.
      apply list_insert_id. rewrite list_lookup_fmap, Hwr. reflexivity. }
    split; [eapply tx_frame_trans; eauto|].
    split.
    + intros k Hk.
      destruct (Z.eq_dec k from) as [->|Hne].
      * destruct (Hout from ltac:(lia) ltac:(lia)) as [Ow Os].
        exists item, flag, wr, sgl. repeat split; try assumption.
        -- rewrite Ow, Ewr. apply list_lookup_insert_eq. exact Hlt_wr.
        -- rewrite Os, Esgl. apply list_lookup_insert_eq. exact Hlt_sgl.
      * destruct (Hin k ltac:(lia))
          as (item' & flag' & wr0 & sgl0 & Ha & Hw0 & Hs0 & Hw' & Hs').
        exists item', flag', wr0, sgl0. repeat split; try assumption.
        -- rewrite Ewr, list_lookup_insert_ne in Hw0 by lia. exact Hw0.
        -- rewrite Esgl, list_lookup_insert_ne in Hs0 by lia. exact Hs0.
    + intros k Hk0 Hk.
      destruct (Hout k Hk0 ltac:(lia)) as [Ow Os].
      rewrite Ow, Os, Ewr, Esgl.
      split; apply list_lookup_insert_ne; lia.
Qed.

(** The loop never indexes out of bounds when the arrays hold the batch. *)
Lemma tx_loop_in_bounds (arr : list tx_burst_item_t) (n : nat) :
  forall (from : Z) (s : state),
  0 <= from ->
  from + Z.of_nat n <= Z.of_nat (length arr) ->
  from + Z.of_nat n <= Z.of_nat (length (send_wr s)) ->
  from + Z.of_nat n <= Z.of_nat (length (send_sgl s)) ->
  (exists s', for_loop n from (tx_burst_iter arr) s = Returned tt s') \/
  (NDEBUG = false /\
   exists e s', for_loop n from (tx_burst_iter arr) s = AssertFailed e s').
Proof.
  induction n as [|n IH]; intros from s Hfrom Ha Hw Hs.
  - left. eexists. reflexivity.
  - rewrite for_loop_S.
    destruct (lookup_lt_is_Some_2 arr (Z.to_nat from) ltac:(lia)) as [item Hitem].
    destruct (lookup_lt_is_Some_2 (send_wr s) (Z.to_nat from) ltac:(lia)) as [wr Hwr].
    destruct (lookup_lt_is_Some_2 (send_sgl s) (Z.to_nat from) ltac:(lia)) as [sgl Hsgl].
    destruct (tx_burst_iter_spec arr from s item wr sgl Hitem Hwr Hsgl)
      as [-> | (Hnd & e & s' & ->)]; [|right; eauto].
    destruct (iter_state_fields from item wr sgl s) as (flag & Ewr & Esgl & _).
    apply IH; try lia.
    + rewrite Ewr, length_insert. lia.
    + rewrite Esgl, length_insert. lia.
Qed.

(** With [NDEBUG] the loop returns whenever it stays in bounds. *)
Lemma tx_loop_returns (arr : list tx_burst_item_t) (n : nat) :
  forall (from : Z) (s : state),
  NDEBUG = true ->
  0 <= from ->
  from + Z.of_nat n <= Z.of_nat (length arr) ->
  from + Z.of_nat n <= Z.of_nat (length (send_wr s)) ->
  from + Z.of_nat n <= Z.of_nat (length (send_sgl s)) ->
  exists s', for_loop n from (tx_burst_iter arr) s = Returned tt s'.
Proof.
  intros from s Hnd Hfrom Ha Hw Hs.
  destruct (tx_loop_in_bounds arr n from s Hfrom Ha Hw Hs)
    as [Hok | (Hd & _)]; [exact Hok|congruence].
Qed.


(** ** The whole of [tx_burst] *)

(** What [tx_burst] does once its loop has returned in state [s1] and
    [send_wr[num_pkts - 1]] is the descriptor [last]. *)
Lemma tx_burst_spec (arr : list tx_burst_item_t) (n ret : Z) (s s1 : state)
    (last : ibv_send_wr) :
  tx_burst_loop arr n s = Returned tt s1 ->
  send_wr s1 !! Z.to_nat (sub64 n 1) = Some last ->
  let posted := <[Z.to_nat (sub64 n 1) := set_next nullptr last]> (send_wr s1) in
  let s3 := set_hw (hw s1 ++ [ev_post_send 0 posted (send_sgl s1)])
              (set_send_wr posted s1) in
  tx_burst arr n ret s =
    if ret =? 0
    then Returned tt
           (set_send_wr
              (<[Z.to_nat (sub64 n 1) := set_next (elem n) last]> (send_wr s1)) s3)
    else if NDEBUG
         then Exited (-1)
                (set_stderr (stderr s1 ++ [mk_log ibv_post_send_failed ret]) s3)
         else AssertFailed "ret == 0" s3.
Proof.
  intros Hloop Hlast posted s3.
  assert (Hlt : (Z.to_nat (sub64 n 1) < length (send_wr s1))%nat)
    by (eapply lookup_lt_Some; eauto).
  unfold tx_burst, index, write_send_wr, submit, fprintf_stderr, exit, assert,
    modify, gets, mbind, M_bind, mret, M_ret.
  rewrite Hloop. cbv beta iota. rewrite Hlast. cbv beta iota.
  cbn [send_wr send_sgl hw set_send_wr set_hw].
  fold posted.
  destruct (ret =? 0) eqn:Hret.
  - rewrite orb_true_r. cbv beta iota. cbn [send_wr set_hw set_send_wr].
    unfold posted at 1. rewrite list_lookup_insert_eq by exact Hlt.
    cbv beta iota. cbn [send_wr set_hw set_send_wr].
    unfold posted at 1. rewrite list_insert_insert_eq.
    reflexivity.
  - rewrite orb_false_r. destruct NDEBUG; reflexivity.
Qed.

Lemma tx_burst_inv (arr : list tx_burst_item_t) (n ret : Z) (s s' : state) :
  tx_burst arr n ret s = Returned tt s' ->
  exists s1 last,
    tx_burst_loop arr n s = Returned tt s1 /\
    send_wr s1 !! Z.to_nat (sub64 n 1) = Some last /\
    ret = 0 /\
    let posted := <[Z.to_nat (sub64 n 1) := set_next nullptr last]> (send_wr s1) in
    s' = set_send_wr
           (<[Z.to_nat (sub64 n 1) := set_next (elem n) last]> (send_wr s1))
           (set_hw (hw s1 ++ [ev_post_send 0 posted (send_sgl s1)])
              (set_send_wr posted s1)).
Proof.
  intros Hrun.
  destruct (tx_burst_loop arr n s) as [[] s1| | |] eqn:Hloop;
    try (unfold tx_burst, mbind, M_bind in Hrun; rewrite Hloop in Hrun;
         discriminate).
  destruct (send_wr s1 !! Z.to_nat (sub64 n 1)) as [last|] eqn:Hlast.
  2:{ unfold tx_burst, index, mbind, M_bind in Hrun.
      rewrite Hloop, Hlast in Hrun. discriminate. }
  rewrite (tx_burst_spec arr n ret s s1 last Hloop Hlast) in Hrun.
  destruct (Z.eqb_spec ret 0) as [->|Hne].
  - injection Hrun as <-. exists s1, last. repeat split; assumption.
  - destruct NDEBUG; discriminate.
Qed.

(** The descriptors the NIC walks along a path [p] of [len] links. *)
Lemma chain_from_path {A} (nxt : A -> ptr) (wrs : list A) (p : nat -> Z)
    (len : nat) :
  (exists wr, wrs !! Z.to_nat (p (len - 1)%nat) = Some wr /\ nxt wr = nullptr) ->
  forall (fuel j : nat),
  (j < len)%nat -> (len - j <= fuel)%nat ->
  (forall k, (j <= k)%nat -> (S k < len)%nat ->
     exists wr, wrs !! Z.to_nat (p k) = Some wr /\ nxt wr = elem (p (S k))) ->
  chain_from nxt wrs fuel (p j) = p <$> seq j (len - j).
Proof.
  intros (wl & Hwl & Hnull).
  induction fuel as [|fuel IH]; intros j Hj Hfuel Hlink; [lia|].
  cbn [chain_from].
  destruct (Nat.eq_dec (S j) len) as [Hend|Hmore].
  - replace (len - 1)%nat with j in Hwl by lia.
    rewrite Hwl, Hnull. replace (len - j)%nat with 1%nat by lia. reflexivity.
  - destruct (Hlink j ltac:(lia) ltac:(lia)) as (wr & Hwr & Hnx).
    rewrite Hwr, Hnx.
    rewrite IH by (try lia; intros k ? ?; apply Hlink; lia).
    replace (len - j)%nat with (S (len - S j)) by lia. reflexivity.
Qed.


Lemma chain_intact_ext (a b : list ibv_send_wr) :
  next <$> a = next <$> b -> chain_intact a -> chain_intact b.
Proof.
  intros Heq Ha i wr Hi Hwr Hlen.
  assert (Hl : length a = length b).
  { rewrite <- (length_fmap next a), <- (length_fmap next b), Heq. reflexivity. }
  assert (Hb : (next <$> b) !! Z.to_nat i = Some (next wr))
    by (rewrite list_lookup_fmap, Hwr; reflexivity).
  rewrite <- Heq, list_lookup_fmap in Hb.
  destruct (a !! Z.to_nat i) as [wa|] eqn:Hwa; [|discriminate].
  injection Hb as <-. apply (Ha i wa Hi Hwa). lia.
Qed.

Lemma chain_intactb_ok (wrs : list ibv_send_wr) (from : Z) :
  chain_intactb from wrs = true ->
  forall i wr, (wrs !! i = Some wr) -> (S i < length wrs)%nat ->
    next wr = elem (from + Z.of_nat i + 1).
Proof.
  revert from. induction wrs as [|w rest IH]; intros from Hb i wr Hwr Hlen.
  - discriminate.
  - cbn [chain_intactb] in Hb. destruct rest as [|w' rest']; [cbn in Hlen; lia|].
    apply andb_prop in Hb as [Hhd Htl].
    destruct i as [|i].
    + injection Hwr as <-. destruct (next w) as [|j]; [discriminate|].
      cbn in Hhd. apply Z.eqb_eq in Hhd. subst j. f_equal. lia.
    + cbn in Hwr. cbn [length] in Hlen.
      rewrite (IH (from + 1) Htl i wr Hwr) by (cbn [length]; lia). f_equal. lia.
Qed.

Lemma chain_intactb_intact (wrs : list ibv_send_wr) :
  chain_intactb 0 wrs = true -> chain_intact wrs.
Proof.
  intros Hb i wr Hi Hwr Hlen.
  rewrite (chain_intactb_ok wrs 0 Hb (Z.to_nat i) wr Hwr) by lia.
  f_equal. lia.
Qed.

Lemma sub64_pred (n : Z) : 1 <= n < 2 ^ 64 -> sub64 n 1 = n - 1.
Proof. intros. apply sub64_small; lia. Qed.

(** C3. When [tx_burst] returns for a batch of 1 to [kPostlist] descriptors,
    the send descriptor chain is as it was before the call: every descriptor
    below the last one of the array points to its successor again, although
    the list handed to the NIC was terminated at descriptor [n - 1] (the NIC
    walked exactly descriptors 0 to [n - 1]). *)
Theorem tx_burst_chain_restored (arr : list tx_burst_item_t) (n ret : Z)
    (s s' : state) :
  tx_consts_ok ->
  tx_state_ok s ->
  chain_intact (send_wr s) ->
  1 <= n <= kPostlist ->
  tx_burst arr n ret s = Returned tt s' ->
  chain_intact (send_wr s') /\
  length (send_wr s') = length (send_wr s) /\
  next <$> send_wr s' = next <$> send_wr s /\
  exists wrs sgls,
    hw s' = hw s ++ [ev_post_send 0 wrs sgls] /\
    next <$> wrs = <[Z.to_nat (n - 1) := nullptr]> (next <$> send_wr s) /\
    chain_from next wrs (length wrs) 0 = Z.of_nat <$> seq 0 (Z.to_nat n).
Proof.
  intros (HP0 & HP & _) (Hcap & _) Hchain Hn Hrun.
  apply tx_burst_inv in Hrun as (s1 & last & Hloop & Hlast & _ & ->).
  rewrite sub64_pred in * by lia.
  destruct (tx_loop_inv arr (Z.to_nat n) 0 s s1 ltac:(lia) Hloop)
    as (Lwr & _ & Nx & Hfr & _ & _).
  cbn [send_wr hw set_send_wr set_hw].
  assert (Hsame : next <$> <[Z.to_nat (n - 1) := set_next (elem n) last]> (send_wr s1)
                  = next <$> send_wr s).
  { rewrite list_fmap_insert, Nx. apply list_insert_id.
    assert (Hl : (next <$> send_wr s1) !! Z.to_nat (n - 1) = Some (next last))
      by (rewrite list_lookup_fmap, Hlast; reflexivity).
    rewrite Nx, list_lookup_fmap in Hl.
    destruct (send_wr s !! Z.to_nat (n - 1)) as [w|] eqn:Hw; [|discriminate].
    rewrite list_lookup_fmap, Hw. cbn.
    rewrite (Hchain (n - 1) w ltac:(lia) Hw ltac:(lia)). do 2 f_equal. lia. }
  split; [eapply chain_intact_ext; [symmetry; exact Hsame|exact Hchain]|].
  split; [rewrite length_insert; exact Lwr|].
  split; [exact Hsame|].
  eexists _, _. split.
  { destruct Hfr as (_ & _ & _ & _ & _ & _ & _ & _ & -> & _). reflexivity. }
  split; [rewrite list_fmap_insert, Nx; reflexivity|].
  rewrite length_insert.
  assert (Hlt : (Z.to_nat (n - 1) < length (send_wr s1))%nat)
    by (eapply lookup_lt_Some; eauto).
  replace (seq 0 (Z.to_nat n)) with (seq 0 (Z.to_nat n - 0))
    by (f_equal; lia).
  apply (chain_from_path next _ Z.of_nat (Z.to_nat n)) with (j := 0%nat);
    try lia.
  - exists (set_next nullptr last). split; [|reflexivity].
    rewrite Nat2Z.id. replace (Z.to_nat n - 1)%nat with (Z.to_nat (n - 1)) by lia.
    apply list_lookup_insert_eq. exact Hlt.
  - intros k _ Hk. rewrite Nat2Z.id.
    rewrite list_lookup_insert_ne by lia.
    destruct (lookup_lt_is_Some_2 (send_wr s1) k ltac:(lia)) as [w Hw].
    exists w. split; [exact Hw|].
    assert (Hl : (next <$> send_wr s1) !! k = Some (next w))
      by (rewrite list_lookup_fmap, Hw; reflexivity).
    rewrite Nx, list_lookup_fmap in Hl.
    destruct (send_wr s !! k) as [w0|] eqn:Hw0; [|discriminate].
    injection Hl as <-.
    rewrite <- (Nat2Z.id k) in Hw0.
    rewrite (Hchain (Z.of_nat k) w0 ltac:(lia) Hw0 ltac:(lia)). f_equal. lia.
Qed.


Lemma wrap32_small z : 0 <= z < 2 ^ 32 -> wrap32 z = z.
Proof. intros Hz. unfold wrap32. apply Z.mod_small. exact Hz. Qed.

Lemma num_sge_iter_wr (item : tx_burst_item_t) (flag : Z) (wr : ibv_send_wr) :
  num_sge (iter_wr item flag wr) = if pkt_index item =? 0 then 1 else 2.
Proof. unfold iter_wr. destruct (pkt_index item =? 0); reflexivity. Qed.

(** C1. When [tx_burst] returns for a batch of 1 to [kPostlist] descriptors,
    every descriptor [k] of the batch, in order, is configured from item [k]:
    a first packet ([pkt_index = 0]) uses exactly one scatter-gather entry
    and its packet size is that entry's length; a later packet uses exactly
    two, the header entry of [sizeof(pkthdr_t)] bytes and the data entry at
    [buf + pkt_index * kMaxDataPerPkt] of length
    [min(kMaxDataPerPkt, data_size - offset)], and its packet size is the sum
    of the two lengths. *)
Theorem tx_burst_sge_layout (arr : list tx_burst_item_t) (n ret : Z)
    (s s' : state) :
  tx_consts_ok ->
  1 <= n <= kPostlist ->
  tx_burst arr n ret s = Returned tt s' ->
  forall k, 0 <= k < n ->
  exists item wr sge0 sge1,
    arr !! Z.to_nat k = Some item /\
    send_wr s' !! Z.to_nat k = Some wr /\
    send_sgl s' !! Z.to_nat k = Some (sge0, sge1) /\
    (pkt_index item = 0 ->
       num_sge wr = 1 /\
       sge0 = first_pkt_sge item /\
       pkt_size_of item = sge_length sge0) /\
    (pkt_index item <> 0 ->
       let offset := mul64 (pkt_index item) kMaxDataPerPkt in
       num_sge wr = 2 /\
       sge_addr sge0 = get_pkthdr_n (msg_buffer item) (pkt_index item) /\
       sge_length sge0 = sizeof_pkthdr_t /\
       sge_addr sge1 = buf (msg_buffer item) + offset /\
       sge_length sge1
         = Z.min kMaxDataPerPkt (sub64 (data_size (msg_buffer item)) offset) /\
       pkt_size_of item = sge_length sge0 + sge_length sge1).
Proof.
  intros (HP0 & HP & HM & Hh0 & Hfit) Hn Hrun k Hk.
  unfold is_size_t in HM.
  apply tx_burst_inv in Hrun as (s1 & last & Hloop & Hlast & _ & ->).
  rewrite sub64_pred in * by lia.
  destruct (tx_loop_inv arr (Z.to_nat n) 0 s s1 ltac:(lia) Hloop)
    as (_ & _ & _ & _ & Hin & _).
  destruct (Hin k ltac:(lia))
    as (item & flag & wr0 & sgl0 & Hitem & _ & _ & Hwr & Hsgl).
  cbn [send_wr send_sgl set_send_wr set_hw].
  assert (Hnum : exists wr, <[Z.to_nat (n - 1) := set_next (elem n) last]>
                              (send_wr s1) !! Z.to_nat k = Some wr /\
                            num_sge wr = if pkt_index item =? 0 then 1 else 2).
  { destruct (Z.eq_dec k (n - 1)) as [->|Hne].
    - rewrite list_lookup_insert_eq by (eapply lookup_lt_Some; eauto).
      eexists; split; [reflexivity|].
      rewrite Hlast in Hwr. injection Hwr as ->.
      cbn [set_next num_sge]. apply num_sge_iter_wr.
    - rewrite list_lookup_insert_ne by lia.
      eexists; split; [exact Hwr|]. apply num_sge_iter_wr. }
  destruct Hnum as (wr & Hwr' & Hnum).
  exists item, wr, (fst (iter_sgl item sgl0)), (snd (iter_sgl item sgl0)).
  split; [exact Hitem|]. split; [exact Hwr'|].
  split; [rewrite Hsgl; destruct (iter_sgl item sgl0); reflexivity|].
  unfold iter_sgl, pkt_size_of in *.
  destruct (Z.eqb_spec (pkt_index item) 0) as [Hz|Hne0].
  - split; [|intros; contradiction]. intros _. cbn [fst]. auto.
  - split; [intros; contradiction|]. intros _.
    cbn [fst snd hdr_sge data_sge sge_addr sge_length].
    set (offset := mul64 (pkt_index item) kMaxDataPerPkt).
    assert (Hsub : 0 <= sub64 (data_size (msg_buffer item)) offset)
      by apply wrap64_range.
    rewrite !wrap32_small by lia.
    repeat split; try reflexivity; try assumption.
Qed.


(** ** Header stamping *)

Lemma store8_eq (m : memory) (a v : Z) : store8 m a v a = v mod 256.
Proof. unfold store8. rewrite Z.eqb_refl. reflexivity. Qed.

Lemma store8_ne (m : memory) (a v x : Z) : x <> a -> store8 m a v x = m x.
Proof. intros Hne. unfold store8. destruct (Z.eqb_spec x a); [contradiction|reflexivity]. Qed.

Lemma store16_other (m : memory) (a v x : Z) :
  x <> a -> x <> a + 1 -> store16 m a v x = m x.
Proof.
  intros H1 H2. unfold store16.
  destruct host_big_endian; rewrite !store8_ne by assumption; reflexivity.
Qed.

Lemma store32_other (m : memory) (a v x : Z) :
  x < a \/ a + 3 < x -> store32 m a v x = m x.
Proof.
  intros Hx. unfold store32.
  destruct host_big_endian; rewrite !store8_ne by lia; reflexivity.
Qed.

(** A [uint16_t] stored through [htons] lies in memory high byte first. *)
Lemma store16_htons_bytes (m : memory) (a v : Z) :
  store16 m a (htons v) a = wrap16 v / 256 /\
  store16 m a (htons v) (a + 1) = wrap16 v mod 256.
Proof.
  assert (Hw : 0 <= wrap16 v < 2 ^ 16) by (apply Z.mod_pos_bound; lia).
  assert (Hhi : 0 <= wrap16 v / 256 < 256)
    by (split; [apply Z.div_pos; lia|apply Z.div_lt_upper_bound; lia]).
  assert (Hlo : 0 <= wrap16 v mod 256 < 256) by (apply Z.mod_pos_bound; lia).
  unfold store16, htons. destruct host_big_endian.
  - rewrite store8_ne, !store8_eq by lia.
    split; [apply Z.mod_small; lia|reflexivity].
  - rewrite store8_ne, !store8_eq by lia. split.
    + rewrite Z.add_comm, Z.mod_add by lia. apply Z.mod_small; lia.
    + rewrite Z.add_comm, Z.div_add by lia.
      rewrite (Z.div_small (wrap16 v / 256)) by lia.
      apply Z.mod_small. lia.
Qed.







(** A loop of [a + b] iterations is [a] iterations, then [b] more. *)
Lemma for_loop_app (a b : nat) (body : Z -> M unit) :
  forall (from : Z) (s : state),
  for_loop (a + b) from body s =
  match for_loop a from body s with
  | Returned _ s1 => for_loop b (from + Z.of_nat a) body s1
  | Exited c s1 => Exited c s1
  | AssertFailed e s1 => AssertFailed e s1
  | OutOfBounds => OutOfBounds
  end.
Proof.
  induction a as [|a IH]; intros from s.
  - cbn. rewrite Z.add_0_r. reflexivity.
  - change (S a + b)%nat with (S (a + b)). rewrite !for_loop_S.
    destruct (body from s); try reflexivity.
    rewrite IH. replace (from + 1 + Z.of_nat a) with (from + Z.of_nat (S a)) by lia.
    reflexivity.
Qed.

(** When the loop over [n] items returns, so does the loop over the first
    [k + 1], and its last step is the iteration of item [k]. *)
Lemma tx_burst_loop_prefix (arr : list tx_burst_item_t) (n k : Z) (s s' : state) :
  0 <= k < n ->
  tx_burst_loop arr n s = Returned tt s' ->
  exists s0 sk,
    tx_burst_loop arr k s = Returned tt s0 /\
    tx_burst_iter arr k s0 = Returned tt sk /\
    tx_burst_loop arr (k + 1) s = Returned tt sk.
Proof.
  intros Hk Hrun. unfold tx_burst_loop in *.
  replace (Z.to_nat n) with (Z.to_nat k + (1 + Z.to_nat (n - k - 1)))%nat in Hrun by lia.
  rewrite for_loop_app in Hrun.
  destruct (for_loop (Z.to_nat k) 0 (tx_burst_iter arr) s) as [[] s0| | |] eqn:H0k;
    try discriminate.
  rewrite for_loop_app in Hrun.
  rewrite Z.add_0_l, Z2Nat.id in Hrun by lia.
  destruct (for_loop 1 k (tx_burst_iter arr) s0) as [[] sk| | |] eqn:H1; try discriminate.
  exists s0, sk. split; [reflexivity|].
  assert (Hiter : tx_burst_iter arr k s0 = Returned tt sk).
  { rewrite for_loop_S in H1. destruct (tx_burst_iter arr k s0) as [[] ?| | |];
      try discriminate. exact H1. }
  split; [exact Hiter|].
  replace (Z.to_nat (k + 1)) with (Z.to_nat k + 1)%nat by lia.
  rewrite for_loop_app, H0k, Z.add_0_l, Z2Nat.id by lia. exact H1.
Qed.



(** ** Bounds *)

(** With [NDEBUG] and a successful post, [tx_burst] returns for every batch
    the arrays can hold. *)
Lemma tx_burst_returns (arr : list tx_burst_item_t) (n : Z) (s : state) :
  NDEBUG = true ->
  tx_consts_ok -> tx_state_ok s ->
  1 <= n <= kPostlist ->
  n <= Z.of_nat (length arr) ->
  exists s', tx_burst arr n 0 s = Returned tt s'.
Proof.
  intros Hnd (HP0 & HP & _) (Hcap & Hsgl) Hn Harr.
  destruct (tx_loop_returns arr (Z.to_nat n) 0 s Hnd) as [s1 Hloop]; try lia.
  destruct (tx_loop_inv arr (Z.to_nat n) 0 s s1 ltac:(lia) Hloop) as (Lwr & _).
  destruct (lookup_lt_is_Some_2 (send_wr s1) (Z.to_nat (sub64 n 1))) as [last Hlast].
  { rewrite sub64_pred by lia. lia. }
  rewrite (tx_burst_spec arr n 0 s s1 last Hloop Hlast). cbn. eauto.
Qed.

(** C10. [tx_burst] needs [num_pkts >= 1]. For a batch of 1 to [kPostlist]
    descriptors no array access is out of bounds: [send_wr[i]] and
    [send_sgl[i]] for every [i < num_pkts], the two writes through
    [send_wr[num_pkts - 1]], and the restore target [&send_wr[num_pkts]] all
    name elements. For [num_pkts = 0] the index [num_pkts - 1] wraps to
    [2^64 - 1] and the access [send_wr[num_pkts - 1]] is out of bounds. *)
Theorem tx_burst_bounds (arr : list tx_burst_item_t) (ret : Z) (s : state) :
  tx_consts_ok ->
  tx_state_ok s ->
  (forall n, 1 <= n <= kPostlist -> n <= Z.of_nat (length arr) ->
     tx_burst arr n ret s <> OutOfBounds /\
     (forall i, 0 <= i < n ->
        is_Some (send_wr s !! Z.to_nat i) /\ is_Some (send_sgl s !! Z.to_nat i)) /\
     is_Some (send_wr s !! Z.to_nat (sub64 n 1)) /\
     is_Some (send_wr s !! Z.to_nat n)) /\
  (sub64 0 1 = 2 ^ 64 - 1 /\
   send_wr s !! Z.to_nat (sub64 0 1) = None /\
   tx_burst arr 0 ret s = OutOfBounds).
Proof.
  intros (HP0 & HP & _) (Hcap & Hsgl). split.
  - intros n Hn Harr.
    assert (Hpred : sub64 n 1 = n - 1) by (apply sub64_pred; lia).
    split; [|repeat split; apply lookup_lt_is_Some_2; lia].
    destruct (tx_loop_in_bounds arr (Z.to_nat n) 0 s) as [[s1 Hloop] | (_ & e & s1 & Hbad)];
      try lia.
    + destruct (tx_loop_inv arr (Z.to_nat n) 0 s s1 ltac:(lia) Hloop) as (Lwr & _).
      destruct (lookup_lt_is_Some_2 (send_wr s1) (Z.to_nat (sub64 n 1))) as [last Hlast];
        [lia|].
      rewrite (tx_burst_spec arr n ret s s1 last Hloop Hlast).
      destruct (ret =? 0); [discriminate|]. destruct NDEBUG; discriminate.
    + unfold tx_burst, tx_burst_loop, mbind, M_bind. rewrite Hbad. discriminate.
  - assert (Hwrap : sub64 0 1 = 2 ^ 64 - 1) by reflexivity.
    assert (Hnone : send_wr s !! Z.to_nat (sub64 0 1) = None).
    { apply lookup_ge_None_2. rewrite Hwrap. lia. }
    repeat split; try assumption.
    unfold tx_burst, tx_burst_loop, index, mbind, M_bind.
    change (Z.to_nat 0) with 0%nat. cbn [for_loop]. unfold mret, M_ret.
    rewrite Hnone. reflexivity.
Qed.


(** ** post_recvs *)

Lemma assert_pass (e : bool) (expr : string) (s : state) :
  NDEBUG = true \/ e = true -> assert e expr s = Returned tt s.
Proof. intros [Hn | He]; unfold assert; [rewrite Hn|rewrite He, orb_true_r]; reflexivity. Qed.

Lemma set_recvs_to_post_id (s : state) : set_recvs_to_post (recvs_to_post s) s = s.
Proof. destruct s; reflexivity. Qed.

(** [post_recvs] past its first two lines: the branch taken on the
    accumulated count [acc], run in the state that holds it. *)
Lemma post_recvs_with_unfold (fast : bool) (num_recvs ret : Z) (s : state) :
  let acc := add64 (recvs_to_post s) num_recvs in
  NDEBUG = true \/ num_recvs <= kNumRxRingEntries ->
  post_recvs_with fast num_recvs ret s =
    (if kDumb then
       if acc <? kStridesPerWQE then mret tt
       else
         sge_idx ← gets mp_sge_idx;
         submit (ev_recv_burst sge_idx) ;;
         assert (ret =? 0) "ret == 0" ;;
         modify (fun s => set_mp_sge_idx (add64 (mp_sge_idx s) 1 mod kRQDepth) s) ;;
         modify (fun s => set_recvs_to_post (sub64 (recvs_to_post s) kStridesPerWQE) s)
     else
       if acc <? kRecvSlack then mret tt
       else if fast then
         submit (ev_post_recv_fast
                   (mk_recv_wr kMagicWrIDForFastRecv nullptr (to_int acc))) ;;
         (if ret =? 0 then mret tt
          else fprintf_stderr post_recv_fast_failed ret ;; exit (-1)) ;;
         modify (set_recvs_to_post 0)
       else post_recvs_normal ret)
      (set_recvs_to_post acc s).
Proof.
  intros acc Hassert.
  assert (Ha : assert (num_recvs <=? kNumRxRingEntries)
                 "num_recvs <= kNumRxRingEntries" s = Returned tt s).
  { apply assert_pass. destruct Hassert as [?|Hle]; [left; assumption|right].
    apply Z.leb_le. exact Hle. }
  unfold post_recvs_with.
  unfold mbind at 1, M_bind at 1. rewrite Ha.
  unfold mbind at 1, M_bind at 1, modify at 1.
  unfold mbind at 1, M_bind at 1, gets at 1.
  cbn [recvs_to_post set_recvs_to_post]. reflexivity.
Qed.

Lemma post_recvs_below (fast : bool) (num_recvs ret : Z) (s : state) :
  let acc := add64 (recvs_to_post s) num_recvs in
  NDEBUG = true \/ num_recvs <= kNumRxRingEntries ->
  acc < post_threshold ->
  post_recvs_with fast num_recvs ret s = Returned tt (set_recvs_to_post acc s).
Proof.
  intros acc Hassert Hlt. unfold post_threshold in Hlt.
  rewrite post_recvs_with_unfold by exact Hassert. fold acc.
  destruct kDumb.
  - destruct (Z.ltb_spec acc kStridesPerWQE); [reflexivity|lia].
  - destruct (Z.ltb_spec acc kRecvSlack); [reflexivity|lia].
Qed.

Lemma post_recvs_striding (fast : bool) (num_recvs ret : Z) (s : state) :
  let acc := add64 (recvs_to_post s) num_recvs in
  NDEBUG = true \/ num_recvs <= kNumRxRingEntries ->
  kDumb = true ->
  0 <= kStridesPerWQE <= acc ->
  NDEBUG = true \/ ret = 0 ->
  post_recvs_with fast num_recvs ret s =
    Returned tt
      (set_recvs_to_post (acc - kStridesPerWQE)
         (set_mp_sge_idx (add64 (mp_sge_idx s) 1 mod kRQDepth)
            (set_hw (hw s ++ [ev_recv_burst (mp_sge_idx s)]) s))).
Proof.
  intros acc Hassert Hdumb Hge Hret.
  assert (Hacc : 0 <= acc < 2 ^ 64) by apply wrap64_range.
  rewrite post_recvs_with_unfold by exact Hassert. fold acc. rewrite Hdumb.
  destruct (Z.ltb_spec acc kStridesPerWQE); [lia|].
  unfold mbind, M_bind, gets, submit, modify.
  rewrite assert_pass
    by (destruct Hret as [?| ->]; [left; assumption|right; reflexivity]).
  cbn. rewrite sub64_small by lia. reflexivity.
Qed.

Lemma post_recvs_fast_spec (num_recvs ret : Z) (s : state) :
  let acc := add64 (recvs_to_post s) num_recvs in
  let posted := set_hw (hw s ++ [ev_post_recv_fast
                  (mk_recv_wr kMagicWrIDForFastRecv nullptr (to_int acc))])
                  (set_recvs_to_post acc s) in
  NDEBUG = true \/ num_recvs <= kNumRxRingEntries ->
  kDumb = false ->
  kRecvSlack <= acc ->
  post_recvs_with true num_recvs ret s =
    if ret =? 0 then Returned tt (set_recvs_to_post 0 posted)
    else Exited (-1)
           (set_stderr (stderr s ++ [mk_log post_recv_fast_failed ret]) posted).
Proof.
  intros acc posted Hassert Hdumb Hge.
  rewrite post_recvs_with_unfold by exact Hassert. fold acc. rewrite Hdumb.
  destruct (Z.ltb_spec acc kRecvSlack); [lia|].
  unfold mbind, M_bind, submit, fprintf_stderr, exit, modify.
  destruct (ret =? 0); reflexivity.
Qed.

(** X11. Any run of [post_recvs] calls whose counts, with what was pending,
    add up to less than the threshold submits nothing, returns, and leaves
    that sum in the pending counter; nothing else changes. *)
Lemma post_recvs_seq_below (calls : list Z) :
  forall s : state,
  Forall (fun n => 0 <= n <= kNumRxRingEntries) calls ->
  0 <= recvs_to_post s ->
  post_threshold <= 2 ^ 64 ->
  recvs_to_post s + foldr Z.add 0 calls < post_threshold ->
  post_recvs_seq calls s =
    Returned tt (set_recvs_to_post (recvs_to_post s + foldr Z.add 0 calls) s).
Proof.
  induction calls as [|n rest IH]; intros s Hall H0 Hth Hsum.
  - cbn. rewrite Z.add_0_r, set_recvs_to_post_id. reflexivity.
  - apply Forall_cons in Hall as [Hn Hrest]. cbn [foldr] in *.
    assert (Hrest0 : 0 <= foldr Z.add 0 rest).
    { clear -Hrest. induction Hrest; cbn; lia. }
    cbn [post_recvs_seq]. unfold mbind, M_bind, post_recvs.
    rewrite post_recvs_below; [|right; lia|rewrite add64_small by lia; lia].
    rewrite add64_small by lia.
    rewrite IH.
    + cbn [recvs_to_post set_recvs_to_post].
      change (set_recvs_to_post ?b (set_recvs_to_post ?a s))
        with (set_recvs_to_post b s).
      do 2 f_equal. lia.
    + exact Hrest.
    + cbn [recvs_to_post set_recvs_to_post]. lia.
    + exact Hth.
    + cbn [recvs_to_post set_recvs_to_post]. lia.
Qed.

(** C6. [post_recvs] adds [num_recvs] to the pending counter. While the
    accumulated count stays below the threshold ([kStridesPerWQE] in striding
    mode, [kRecvSlack] otherwise) the call submits nothing and only the
    counter changes. A call that reaches the threshold submits exactly one
    receive post and resets the counter: to the accumulated count minus
    [kStridesPerWQE] in striding mode, to 0 on the fast encoded path. *)
Theorem post_recvs_accumulates (num_recvs ret : Z) (s : state) :
  let acc := add64 (recvs_to_post s) num_recvs in
  NDEBUG = true \/ num_recvs <= kNumRxRingEntries ->
  (acc < post_threshold ->
     post_recvs num_recvs ret s = Returned tt (set_recvs_to_post acc s)) /\
  (post_threshold <= acc -> kDumb = true ->
     NDEBUG = true \/ ret = 0 -> 0 <= kStridesPerWQE ->
     post_recvs num_recvs ret s =
       Returned tt
         (set_recvs_to_post (acc - kStridesPerWQE)
            (set_mp_sge_idx (add64 (mp_sge_idx s) 1 mod kRQDepth)
               (set_hw (hw s ++ [ev_recv_burst (mp_sge_idx s)]) s)))) /\
  (post_threshold <= acc -> kDumb = false -> ret = 0 ->
     post_recvs num_recvs ret s =
       Returned tt
         (set_recvs_to_post 0
            (set_hw (hw s ++ [ev_post_recv_fast
                                (mk_recv_wr kMagicWrIDForFastRecv nullptr (to_int acc))])
               s))).
Proof.
  intros acc Hassert. unfold post_recvs, use_fast_recv. repeat split.
  - intros Hlt. apply post_recvs_below; assumption.
  - intros Hge Hdumb Hret Hs. unfold post_threshold in Hge. rewrite Hdumb in Hge.
    apply post_recvs_striding; try assumption. fold acc. lia.
  - intros Hge Hdumb ->. unfold post_threshold in Hge. rewrite Hdumb in Hge.
    rewrite post_recvs_fast_spec by assumption. reflexivity.
Qed.

(** C8, as the code has it. [post_recvs(0)] submits nothing and changes
    nothing whenever the pending counter is below the threshold. *)
Theorem post_recvs_zero_below_threshold (ret : Z) (s : state) :
  0 <= kNumRxRingEntries ->
  is_size_t (recvs_to_post s) ->
  recvs_to_post s < post_threshold ->
  post_recvs 0 ret s = Returned tt s.
Proof.
  intros HR Hrange Hlt.
  assert (Hsame : add64 (recvs_to_post s) 0 = recvs_to_post s)
    by (unfold is_size_t in Hrange; rewrite add64_small by lia; lia).
  unfold post_recvs. rewrite post_recvs_below.
  - rewrite Hsame, set_recvs_to_post_id. reflexivity.
  - right. exact HR.
  - rewrite Hsame. exact Hlt.
Qed.


(** C7. A nonzero return code of [ibv_post_send] ([tx_burst]) or of
    [ibv_post_recv] ([post_recvs]) is fatal. [tx_burst] never returns to its
    caller; once its loop is done it submits the batch exactly once and the
    process ends: with [exit(-1)] after one diagnostic line on stderr, or, in
    a build with assertions, with the failed [assert(ret == 0)].
    [post_recvs], having reached its threshold, submits exactly once, prints
    one diagnostic line and ends the process with [exit(-1)]. Nothing is
    retried and no error value is returned. *)
Theorem post_failure_is_fatal (ret : Z) :
  ret <> 0 ->
  (forall arr n s,
     (forall s', tx_burst arr n ret s <> Returned tt s') /\
     (forall s1 last,
        tx_burst_loop arr n s = Returned tt s1 ->
        send_wr s1 !! Z.to_nat (sub64 n 1) = Some last ->
        exists sf ev,
          hw sf = hw s ++ [ev] /\
          (NDEBUG = true ->
             tx_burst arr n ret s = Exited (-1) sf /\
             stderr sf = stderr s ++ [mk_log ibv_post_send_failed ret]) /\
          (NDEBUG = false ->
             tx_burst arr n ret s = AssertFailed "ret == 0" sf /\
             stderr sf = stderr s))) /\
  (forall num_recvs s,
     kDumb = false ->
     NDEBUG = true \/ num_recvs <= kNumRxRingEntries ->
     kRecvSlack <= add64 (recvs_to_post s) num_recvs ->
     exists sf ev,
       post_recvs num_recvs ret s = Exited (-1) sf /\
       hw sf = hw s ++ [ev] /\
       stderr sf = stderr s ++ [mk_log post_recv_fast_failed ret]).
Proof.
  intros Hret.
  assert (Hb : (ret =? 0) = false) by (apply Z.eqb_neq; exact Hret).
  split.
  - intros arr n s. split.
    + intros s' Hrun. apply tx_burst_inv in Hrun as (_ & _ & _ & _ & H0 & _).
      contradiction.
    + intros s1 last Hloop Hlast.
      destruct (tx_loop_inv arr (Z.to_nat n) 0 s s1 ltac:(lia) Hloop)
        as (_ & _ & _ & Hfr & _).
      destruct Hfr as (_ & _ & _ & _ & _ & _ & _ & _ & Hhw & Herr).
      rewrite (tx_burst_spec arr n ret s s1 last Hloop Hlast), Hb.
      destruct NDEBUG.
      * eexists _, _. split; [|split; [intros _; split; [reflexivity|]|discriminate]].
        -- cbn [hw set_stderr set_hw]. rewrite Hhw. reflexivity.
        -- cbn [stderr set_stderr]. rewrite Herr. reflexivity.
      * eexists _, _. split; [|split; [discriminate|intros _; split; [reflexivity|]]].
        -- cbn [hw set_hw]. rewrite Hhw. reflexivity.
        -- cbn [stderr set_hw set_send_wr]. exact Herr.
  - intros num_recvs s Hdumb Hassert Hge.
    unfold post_recvs, use_fast_recv.
    rewrite post_recvs_fast_spec by assumption. rewrite Hb.
    eexists _, _. repeat split.
Qed.

(** ** The compatibility path of [post_recvs] *)

Lemma mod_shift_ne (a d D : Z) : 0 < d < D -> (a + d) mod D <> a mod D.
Proof.
  intros Hd Heq.
  assert (Hdiv : ((a + d) - a) mod D = 0).
  { rewrite Zminus_mod, Heq, Z.sub_diag. apply Z.mod_0_l. lia. }
  replace (a + d - a) with d in Hdiv by lia.
  rewrite Z.mod_small in Hdiv by lia. lia.
Qed.

Lemma recv_wr_eta (wr : ibv_recv_wr) :
  mk_recv_wr (recv_wr_id wr) (recv_next wr) (recv_num_sge wr) = wr.
Proof. destruct wr; reflexivity. Qed.

Lemma wrap_once (x D : Z) :
  0 < D -> 0 <= x < 2 * D -> 2 * D <= 2 ^ 64 ->
  (if x >=? D then sub64 x D else x) = x mod D.
Proof.
  intros HD Hx H2. rewrite Z.geb_leb. destruct (Z.leb_spec D x).
  - rewrite sub64_small by lia. symmetry.
    replace x with ((x - D) + 1 * D) by lia.
    rewrite Z.mod_add by lia. replace (x - D + 1 * D - D) with (x - D) by lia.
    apply Z.mod_small. lia.
  - symmetry. apply Z.mod_small. lia.
Qed.

(** Lines 165-190 on their own, that is [post_recvs_with false]; no call of
    [post_recvs] reaches them. Run with an accumulated count [acc] (the
    pending counter plus [num_recvs]) between 1 and [kRQDepth], they post the
    [acc] descriptors of the ring that start at the head, wrapping around, as
    one list terminated at its last descriptor; then the ring is linked as
    before, the head has advanced by [acc] modulo [kRQDepth] and the pending
    counter is 0. *)
Lemma post_recvs_compat_splice (num_recvs ret : Z) (s : state) :
  let acc := add64 (recvs_to_post s) num_recvs in
  kDumb = false ->
  NDEBUG = true \/ num_recvs <= kNumRxRingEntries ->
  2 * kRQDepth <= 2 ^ 64 ->
  recv_ring_ok s ->
  0 <= recv_head s < kRQDepth ->
  kRecvSlack <= acc ->
  1 <= acc <= kRQDepth ->
  ret = 0 ->
  exists posted,
    post_recvs_with false num_recvs ret s =
      Returned tt
        (set_recvs_to_post 0
           (set_recv_head ((recv_head s + acc) mod kRQDepth)
              (set_hw (hw s ++ [ev_post_recv (recv_head s) posted]) s))) /\
    chain_from recv_next posted (length posted) (recv_head s)
      = (fun k => (recv_head s + Z.of_nat k) mod kRQDepth) <$> seq 0 (Z.to_nat acc).
Proof.
  intros acc Hdumb Hassert HD (Hlen & Hring) Hhead Hge Hacc ->.
  set (D := kRQDepth) in *.
  set (last := (recv_head s + acc - 1) mod D).
  assert (Hlast_rng : 0 <= last < D) by (apply Z.mod_pos_bound; lia).
  destruct (lookup_lt_is_Some_2 (recv_wr s) (Z.to_nat (recv_head s)) ltac:(lia))
    as [first_wr Hfirst].
  destruct (lookup_lt_is_Some_2 (recv_wr s) (Z.to_nat last) ltac:(lia))
    as [last_wr Hlast].
  exists (<[Z.to_nat last := mk_recv_wr (recv_wr_id last_wr) nullptr
                             (recv_num_sge last_wr)]> (recv_wr s)).
  split.
  - rewrite post_recvs_with_unfold by exact Hassert. fold acc. rewrite Hdumb.
    destruct (Z.ltb_spec acc kRecvSlack); [lia|].
    unfold post_recvs_normal.
    unfold mbind at 1, M_bind at 1, gets at 1.
    unfold mbind at 1, M_bind at 1, gets at 1.
    cbn [recv_head recvs_to_post set_recvs_to_post].
    rewrite (add64_small (recv_head s)), sub64_small by
      (rewrite ?sub64_small by lia; lia).
    fold D. rewrite (wrap_once (recv_head s + (acc - 1)) D) by lia.
    replace (recv_head s + (acc - 1)) with (recv_head s + acc - 1) by lia.
    fold last.
    unfold index, submit, modify, gets, mbind, M_bind, mret, M_ret.
    cbn [recv_wr set_recvs_to_post]. rewrite Hfirst. cbv beta iota.
    cbn [recv_wr set_recvs_to_post]. rewrite Hlast. cbv beta iota.
    change (0 =? 0) with true. cbv beta iota.
    cbn [recv_wr set_recv_wr set_hw set_recvs_to_post].
    rewrite list_lookup_insert_eq by lia. cbv beta iota.
    cbn [recv_wr_id recv_num_sge recv_next recv_head recv_wr hw set_recv_head
         set_recv_wr set_hw set_recvs_to_post].
    rewrite list_insert_insert_eq, recv_wr_eta, list_insert_id by exact Hlast.
    rewrite add64_small by lia.
    replace ((last + 1) mod D) with ((recv_head s + acc) mod D).
    2:{ unfold last. rewrite Zplus_mod_idemp_l. f_equal. lia. }
    destruct s; reflexivity.
  - rewrite length_insert.
    replace (recv_head s) with ((recv_head s + Z.of_nat 0) mod D) at 1
      by (rewrite Z.add_0_r; apply Z.mod_small; lia).
    replace (seq 0 (Z.to_nat acc)) with (seq 0 (Z.to_nat acc - 0)) by (f_equal; lia).
    apply (chain_from_path recv_next _
             (fun k => (recv_head s + Z.of_nat k) mod D) (Z.to_nat acc))
      with (j := 0%nat); try lia.
    + exists (mk_recv_wr (recv_wr_id last_wr) nullptr (recv_num_sge last_wr)).
      split; [|reflexivity].
      replace ((recv_head s + Z.of_nat (Z.to_nat acc - 1)) mod D) with last
        by (unfold last; f_equal; lia).
      apply list_lookup_insert_eq. lia.
    + intros k _ Hk. cbv beta.
      assert (Hpk : 0 <= (recv_head s + Z.of_nat k) mod D < D)
        by (apply Z.mod_pos_bound; lia).
      assert (Hne : (recv_head s + Z.of_nat k) mod D <> last).
      { unfold last.
        replace (recv_head s + acc - 1)
          with ((recv_head s + Z.of_nat k) + (acc - 1 - Z.of_nat k)) by lia.
        intros Heq. symmetry in Heq. revert Heq. apply mod_shift_ne. lia. }
      rewrite list_lookup_insert_ne by lia.
      destruct (lookup_lt_is_Some_2 (recv_wr s)
                  (Z.to_nat ((recv_head s + Z.of_nat k) mod D)) ltac:(lia))
        as [wr Hwr].
      exists wr. split; [exact Hwr|].
      rewrite (Hring _ wr Hwr). fold D. rewrite Z2Nat.id by lia.
      rewrite Zplus_mod_idemp_l. do 2 f_equal. lia.
Qed.


End Properties.

(** * Further properties *)

Section MoreProperties.
Context {raw_h : RawTransportH} {msg_h : MsgBufferH} {build : Build}.

(** ** Computations that do not talk to the NIC *)

Lemma keeps_trace_ret {A} (a : A) : keeps_trace (mret a : M A).
Proof. intros s. cbn. auto. Qed.

Lemma keeps_trace_bind {A B} (m : M A) (f : A -> M B) :
  keeps_trace m -> (forall a, keeps_trace (f a)) -> keeps_trace (m ≫= f).
Proof.
  intros Hm Hf s. specialize (Hm s). unfold mbind, M_bind.
  destruct (m s) as [a s1| | |]; try exact Hm.
  specialize (Hf a s1). destruct Hm as [Hh He].
  destruct (f a s1); try rewrite <- Hh, <- He; exact Hf.
Qed.

Lemma keeps_trace_gets {A} (f : state -> A) : keeps_trace (gets f).
Proof. intros s. cbn. auto. Qed.

Lemma keeps_trace_modify (f : state -> state) :
  (forall s, hw (f s) = hw s /\ stderr (f s) = stderr s) ->
  keeps_trace (modify f).
Proof. intros Hf s. cbn. apply Hf. Qed.

Lemma keeps_trace_assert (e : bool) (expr : string) : keeps_trace (assert e expr).
Proof. intros s. unfold assert. destruct NDEBUG, e; cbn; auto. Qed.

Lemma keeps_trace_index {A} (arr : state -> list A) (i : Z) :
  keeps_trace (index arr i).
Proof. intros s. unfold index. destruct (arr s !! Z.to_nat i); auto. Qed.

Lemma keeps_trace_for_loop (body : Z -> M unit) (n : nat) :
  (forall i, keeps_trace (body i)) ->
  forall from, keeps_trace (for_loop n from body).
Proof.
  intros Hbody. induction n as [|n IH]; intros from.
  - apply keeps_trace_ret.
  - cbn [for_loop]. apply keeps_trace_bind; [apply Hbody|]. intros _. apply IH.
Qed.

Lemma keeps_trace_stamp_headers (item : tx_burst_item_t) :
  keeps_trace (stamp_headers item).
Proof.
  unfold stamp_headers.
  repeat first
    [ apply keeps_trace_bind; [|intros ?]
    | apply keeps_trace_gets
    | apply keeps_trace_assert
    | apply keeps_trace_ret
    | apply keeps_trace_modify; intros ?; split; reflexivity
    | match goal with |- keeps_trace (if ?b then _ else _) => destruct b end ].
Qed.

Lemma keeps_trace_tx_burst_iter (arr : list tx_burst_item_t) (i : Z) :
  keeps_trace (tx_burst_iter arr i).
Proof.
  unfold tx_burst_iter, index_const, write_send_sgl, write_send_wr.
  repeat first
    [ apply keeps_trace_stamp_headers
    | apply keeps_trace_bind; [|intros ?]
    | apply keeps_trace_gets
    | apply keeps_trace_assert
    | apply keeps_trace_index
    | apply keeps_trace_ret
    | apply keeps_trace_modify; intros ?; split; reflexivity
    | match goal with |- keeps_trace (if ?b then _ else _) => destruct b end ].
  intros s. unfold call_get_signaled_flag.
  destruct (get_signaled_flag (nb_tx s)); cbn; auto.
Qed.

Lemma keeps_trace_tx_burst_loop (arr : list tx_burst_item_t) (n : Z) :
  keeps_trace (tx_burst_loop arr n).
Proof.
  unfold tx_burst_loop. apply keeps_trace_for_loop.
  intros i. apply keeps_trace_tx_burst_iter.
Qed.

(** X1. [tx_burst] hands the NIC at most one list per call, and only once
    every descriptor of the batch is built. A call that returns has submitted
    exactly one [ibv_post_send] and printed nothing; a call that exits has
    submitted exactly one, printed exactly one line and exits with -1; a call
    stopped by an assertion inside the loop has submitted nothing, and one
    stopped by [assert(ret == 0)] has submitted exactly one. *)
Theorem tx_burst_submits_once (arr : list tx_burst_item_t) (n ret : Z) (s : state) :
  match tx_burst arr n ret s with
  | Returned _ sf =>
      ret = 0 /\ stderr sf = stderr s /\
      exists wrs sgls, hw sf = hw s ++ [ev_post_send 0 wrs sgls]
  | Exited code sf =>
      code = -1 /\ ret <> 0 /\
      stderr sf = stderr s ++ [mk_log ibv_post_send_failed ret] /\
      exists wrs sgls, hw sf = hw s ++ [ev_post_send 0 wrs sgls]
  | AssertFailed expr sf =>
      stderr sf = stderr s /\
      (hw sf = hw s \/
       (expr = "ret == 0"%string /\ ret <> 0 /\
        exists wrs sgls, hw sf = hw s ++ [ev_post_send 0 wrs sgls]))
  | OutOfBounds => True
  end.
Proof.
  pose proof (keeps_trace_tx_burst_loop arr n s) as Hloop.
  destruct (tx_burst_loop arr n s) as [[] s1| | |] eqn:Hrun.
  - destruct Hloop as [Hh He].
    destruct (send_wr s1 !! Z.to_nat (sub64 n 1)) as [last|] eqn:Hlast.
    + rewrite (tx_burst_spec arr n ret s s1 last Hrun Hlast).
      destruct (Z.eqb_spec ret 0) as [Hz|Hnz].
      * cbn. rewrite Hh, He. eauto.
      * destruct NDEBUG; cbn; rewrite Hh, He; eauto 10.
    + unfold tx_burst, index, mbind, M_bind. rewrite Hrun, Hlast. exact I.
  - contradiction.
  - unfold tx_burst, mbind, M_bind. rewrite Hrun.
    destruct Hloop as (_ & Hh & He). split; [exact He|]. left. exact Hh.
  - unfold tx_burst, mbind, M_bind. rewrite Hrun. exact I.
Qed.

(** ** Signaling and inline flags *)

Lemma iter_state_flag (i : Z) (item : tx_burst_item_t) (wr : ibv_send_wr)
    (sgl : ibv_sge * ibv_sge) (s : state) :
  send_wr (iter_state i item wr sgl s)
    = <[Z.to_nat i := iter_wr item (sig_flag (nb_tx s) 0) wr]> (send_wr s) /\
  nb_tx (iter_state i item wr sgl s) = sig_next (nb_tx s).
Proof.
  unfold iter_state, sig_flag, sig_next. cbn [Nat.iter].
  destruct (get_signaled_flag (nb_tx s)) as [flag nb] eqn:E.
  cbn. rewrite E. split; reflexivity.
Qed.

Lemma send_flags_iter_wr (item : tx_burst_item_t) (flag : Z) (wr : ibv_send_wr) :
  send_flags (iter_wr item flag wr)
    = if pkt_index item =? 0 then first_pkt_flags item flag else flag.
Proof. unfold iter_wr. destruct (pkt_index item =? 0); reflexivity. Qed.

Lemma iter_sig_next (k : nat) (nb : Z) :
  Nat.iter k sig_next (sig_next nb) = Nat.iter (S k) sig_next nb.
Proof. symmetry. apply Nat.iter_succ_r. Qed.

(** The loop calls [get_signaled_flag()] once per descriptor, in order. *)
Lemma tx_loop_flags (arr : list tx_burst_item_t) (n : nat) :
  forall (from : Z) (s s' : state),
  0 <= from ->
  for_loop n from (tx_burst_iter arr) s = Returned tt s' ->
  nb_tx s' = Nat.iter n sig_next (nb_tx s) /\
  forall j, (j < n)%nat ->
    exists item wr,
      arr !! Z.to_nat (from + Z.of_nat j) = Some item /\
      send_wr s' !! Z.to_nat (from + Z.of_nat j) = Some wr /\
      send_flags wr =
        if pkt_index item =? 0 then first_pkt_flags item (sig_flag (nb_tx s) j)
        else sig_flag (nb_tx s) j.
Proof.
  induction n as [|n IH]; intros from s s' Hfrom Hrun.
  - cbn in Hrun. injection Hrun as <-. split; [reflexivity|]. intros j Hj. lia.
  - rewrite for_loop_S in Hrun.
    destruct (tx_burst_iter arr from s) as [[] s1| | |] eqn:Hiter; try discriminate.
    apply tx_burst_iter_inv in Hiter
      as (item & wr & sgl & Hitem & Hwr & Hsgl & ->).
    destruct (iter_state_flag from item wr sgl s) as [Ewr Enb].
    set (s1 := iter_state from item wr sgl s) in *.
    destruct (IH (from + 1) s1 s' ltac:(lia) Hrun) as [Hnb Hflags].
    destruct (tx_loop_inv arr n (from + 1) s1 s' ltac:(lia) Hrun)
      as (_ & _ & _ & _ & _ & Hout).
    split.
    + rewrite Hnb, Enb. apply iter_sig_next.
    + intros [|j] Hj.
      * rewrite Z.add_0_r.
        destruct (Hout from ltac:(lia) ltac:(lia)) as [Ow _].
        exists item, (iter_wr item (sig_flag (nb_tx s) 0) wr).
        split; [exact Hitem|]. split; [|apply send_flags_iter_wr].
        rewrite Ow, Ewr. apply list_lookup_insert_eq.
        eapply lookup_lt_Some; eauto.
      * destruct (Hflags j ltac:(lia)) as (item' & wr' & Ha & Hw & Hf).
        replace (from + Z.of_nat (S j)) with (from + 1 + Z.of_nat j) by lia.
        exists item', wr'. split; [exact Ha|]. split; [exact Hw|].
        rewrite Hf, Enb. unfold sig_flag. rewrite iter_sig_next. reflexivity.
Qed.

(** What the steps after the loop leave of the state the loop built. *)
Lemma tx_burst_after_loop (arr : list tx_burst_item_t) (n ret : Z) (s s' : state) :
  tx_burst arr n ret s = Returned tt s' ->
  exists s1 last,
    tx_burst_loop arr n s = Returned tt s1 /\
    send_wr s1 !! Z.to_nat (sub64 n 1) = Some last /\
    send_wr s' = <[Z.to_nat (sub64 n 1) := set_next (elem n) last]> (send_wr s1) /\
    send_sgl s' = send_sgl s1 /\ nb_tx s' = nb_tx s1 /\ mem s' = mem s1.
Proof.
  intros Hrun. apply tx_burst_inv in Hrun as (s1 & last & Hloop & Hlast & _ & ->).
  exists s1, last. repeat split; assumption.
Qed.

Lemma lookup_set_next (wrs : list ibv_send_wr) (i k : nat) (p : ptr)
    (last : ibv_send_wr) :
  wrs !! i = Some last ->
  forall wr', <[i := set_next p last]> wrs !! k = Some wr' ->
  exists wr, wrs !! k = Some wr /\
    sg_list wr' = sg_list wr /\ num_sge wr' = num_sge wr /\
    opcode wr' = opcode wr /\ send_flags wr' = send_flags wr /\
    (k <> i -> wr' = wr).
Proof.
  intros Hlast wr' Hwr'.
  destruct (Nat.eq_dec k i) as [->|Hne].
  - rewrite list_lookup_insert_eq in Hwr' by (eapply lookup_lt_Some; eauto).
    injection Hwr' as <-. exists last. repeat split; try assumption.
    intros Hk. contradiction.
  - rewrite list_lookup_insert_ne in Hwr' by lia.
    exists wr'. repeat split; assumption.
Qed.

(** X2. [tx_burst] calls [get_signaled_flag()] exactly once per descriptor,
    in order: on return the send counter has advanced by [n] calls, a later
    packet's [send_flags] is exactly the flag of its call, and a first
    packet's is that flag with [IBV_SEND_INLINE] added exactly when
    [kMaxInline > 0] and its length is at most
    [kMaxInline + MLX5_ETH_INLINE_HEADER_SIZE]. *)
Theorem tx_burst_signaling (arr : list tx_burst_item_t) (n ret : Z) (s s' : state) :
  tx_burst arr n ret s = Returned tt s' ->
  nb_tx s' = Nat.iter (Z.to_nat n) sig_next (nb_tx s) /\
  forall k, 0 <= k < n ->
    exists item wr,
      arr !! Z.to_nat k = Some item /\
      send_wr s' !! Z.to_nat k = Some wr /\
      let flag := sig_flag (nb_tx s) (Z.to_nat k) in
      (pkt_index item <> 0 -> send_flags wr = flag) /\
      (pkt_index item = 0 ->
         send_flags wr =
           if (0 <? kMaxInline) &&
              (sge_length (first_pkt_sge item)
                 <=? add64 kMaxInline MLX5_ETH_INLINE_HEADER_SIZE)
           then Z.lor flag IBV_SEND_INLINE else flag).
Proof.
  intros Hrun.
  apply tx_burst_after_loop in Hrun
    as (s1 & last & Hloop & Hlast & Ewr & _ & Enb & _).
  destruct (tx_loop_flags arr (Z.to_nat n) 0 s s1 ltac:(lia) Hloop) as [Hnb Hflags].
  split; [rewrite Enb; exact Hnb|].
  intros k Hk.
  destruct (Hflags (Z.to_nat k) ltac:(lia)) as (item & wr & Hitem & Hwr & Hf).
  rewrite Z.add_0_l, Z2Nat.id in * by lia.
  assert (Hsome : is_Some (send_wr s' !! Z.to_nat k)).
  { apply lookup_lt_is_Some_2. rewrite Ewr, length_insert.
    eapply lookup_lt_Some; eauto. }
  destruct Hsome as [wr' Hwr'].
  pose proof Hwr' as Hcopy. rewrite Ewr in Hcopy.
  destruct (lookup_set_next _ _ _ _ _ Hlast _ Hcopy)
    as (wr0 & Hwr0 & _ & _ & _ & Hsf & _).
  rewrite Hwr in Hwr0. injection Hwr0 as <-.
  exists item, wr'. split; [exact Hitem|]. split; [exact Hwr'|].
  cbv zeta. rewrite Hsf, Hf.
  destruct (Z.eqb_spec (pkt_index item) 0) as [Hz|Hnz];
    split; intros; try contradiction; reflexivity.
Qed.

(** X3. A returning [tx_burst] over [n >= 1] descriptors changes nothing it
    does not own: the arrays keep their lengths, no descriptor's [sg_list] or
    [opcode] changes, descriptors and scatter-gather rows from index [n] on
    are exactly as before, and a first packet leaves the second entry of its
    row alone. *)
Theorem tx_burst_descriptor_frame (arr : list tx_burst_item_t) (n ret : Z)
    (s s' : state) :
  1 <= n < 2 ^ 64 ->
  tx_burst arr n ret s = Returned tt s' ->
  length (send_wr s') = length (send_wr s) /\
  length (send_sgl s') = length (send_sgl s) /\
  (forall k wr wr', 0 <= k ->
     send_wr s !! Z.to_nat k = Some wr -> send_wr s' !! Z.to_nat k = Some wr' ->
     sg_list wr' = sg_list wr /\ opcode wr' = opcode wr) /\
  (forall k, n <= k ->
     send_wr s' !! Z.to_nat k = send_wr s !! Z.to_nat k /\
     send_sgl s' !! Z.to_nat k = send_sgl s !! Z.to_nat k) /\
  (forall k item, 0 <= k < n ->
     arr !! Z.to_nat k = Some item -> pkt_index item = 0 ->
     snd <$> send_sgl s' !! Z.to_nat k = snd <$> send_sgl s !! Z.to_nat k).
Proof.
  intros Hn Hrun.
  apply tx_burst_after_loop in Hrun
    as (s1 & last & Hloop & Hlast & Ewr & Esgl & _ & _).
  rewrite sub64_pred in * by lia.
  destruct (tx_loop_inv arr (Z.to_nat n) 0 s s1 ltac:(lia) Hloop)
    as (Lwr & Lsgl & _ & _ & Hin & Hout).
  rewrite Ewr, Esgl, length_insert.
  split; [exact Lwr|]. split; [exact Lsgl|]. split; [|split].
  - intros k wr wr' Hk Hwr Hwr'.
    destruct (lookup_set_next _ _ _ _ _ Hlast _ Hwr')
      as (wr1 & Hwr1 & -> & _ & -> & _).
    destruct (Z.lt_ge_cases k n) as [Hlt|Hge].
    + destruct (Hin k ltac:(lia)) as (item & flag & wr0 & sgl0 & _ & Hw0 & _ & Hw1 & _).
      rewrite Hw0 in Hwr. injection Hwr as <-.
      rewrite Hw1 in Hwr1. injection Hwr1 as <-.
      unfold iter_wr. destruct (pkt_index item =? 0); split; reflexivity.
    + destruct (Hout k Hk ltac:(lia)) as [Ow _].
      rewrite Ow, Hwr in Hwr1. injection Hwr1 as <-. split; reflexivity.
  - intros k Hk. destruct (Hout k ltac:(lia) ltac:(lia)) as [Ow Os].
    rewrite list_lookup_insert_ne by lia. split; assumption.
  - intros k item Hk Hitem Hz.
    destruct (Hin k ltac:(lia)) as (item' & flag & wr0 & sgl0 & Hi & _ & Hs0 & _ & Hs1).
    rewrite Hitem in Hi. injection Hi as <-.
    rewrite Hs0, Hs1. unfold iter_sgl. rewrite Hz. reflexivity.
Qed.


(** ** What stamping writes *)

Lemma store_bytes_outside (bs : list Z) :
  forall (m : memory) (a x : Z),
  x < a \/ a + Z.of_nat (length bs) <= x -> store_bytes m a bs x = m x.
Proof.
  induction bs as [|b rest IH]; intros m a x Hx; [reflexivity|].
  cbn [store_bytes length] in *. rewrite IH by lia. apply store8_ne. lia.
Qed.

Lemma store_bytes_inside (bs : list Z) :
  forall (m : memory) (a : Z) (j : nat) (b : Z),
  bs !! j = Some b -> store_bytes m a bs (a + Z.of_nat j) = b mod 256.
Proof.
  induction bs as [|b0 rest IH]; intros m a j b Hj; [discriminate|].
  cbn [store_bytes]. destruct j as [|j].
  - injection Hj as ->. rewrite Z.add_0_r, store_bytes_outside by lia.
    apply store8_eq.
  - cbn in Hj. replace (a + Z.of_nat (S j)) with (a + 1 + Z.of_nat j) by lia.
    apply IH. exact Hj.
Qed.

Lemma load_bytes_lookup (n : nat) :
  forall (m : memory) (a : Z) (j : nat),
  (j < n)%nat -> load_bytes m a n !! j = Some (m (a + Z.of_nat j)).
Proof.
  induction n as [|n IH]; intros m a j Hj; [lia|].
  cbn [load_bytes]. destruct j as [|j].
  - cbn. rewrite Z.add_0_r. reflexivity.
  - cbn. rewrite IH by lia. do 2 f_equal. lia.
Qed.

Lemma load_bytes_length (n : nat) (m : memory) (a : Z) :
  length (load_bytes m a n) = n.
Proof. revert a. induction n as [|n IH]; intros a; cbn; [|rewrite IH]; reflexivity. Qed.

(** Inside the destination [memcpy] leaves the source's bytes as they were
    before the copy; outside it changes nothing. *)
Lemma memcpy_inside (m : memory) (dst src : Z) (n : nat) (j : Z) :
  0 <= j < Z.of_nat n -> memcpy m dst src n (dst + j) = m (src + j) mod 256.
Proof.
  intros Hj. unfold memcpy.
  rewrite <- (Z2Nat.id j) at 1 by lia.
  rewrite (store_bytes_inside _ m dst (Z.to_nat j) (m (src + j))); [reflexivity|].
  rewrite load_bytes_lookup by lia. rewrite Z2Nat.id by lia. reflexivity.
Qed.

Lemma memcpy_outside (m : memory) (dst src : Z) (n : nat) (x : Z) :
  x < dst \/ dst + Z.of_nat n <= x -> memcpy m dst src n x = m x.
Proof.
  intros Hx. unfold memcpy. apply store_bytes_outside.
  rewrite load_bytes_length. exact Hx.
Qed.

Lemma store32_zero (m : memory) (a x : Z) :
  a <= x <= a + 3 -> store32 m a 0 x = 0.
Proof.
  intros Hx. unfold store32, store8.
  destruct host_big_endian;
    destruct (Z.eqb_spec x (a + 3)); try reflexivity;
    destruct (Z.eqb_spec x (a + 2)); try reflexivity;
    destruct (Z.eqb_spec x (a + 1)); try reflexivity;
    destruct (Z.eqb_spec x a); try reflexivity; lia.
Qed.

Lemma iter_mem_frame (item : tx_burst_item_t) (m : memory) (x : Z) :
  ~ in_headroom item x -> iter_mem item m x = m x.
Proof.
  unfold in_headroom, iter_mem, udp_hdr_of, ipv4_hdr_of, hdr_copy_sz,
    kInetHdrsTotSize, sizeof_eth_hdr_t, sizeof_ipv4_hdr_t, udp_len_off,
    ipv4_tot_len_off, ipv4_dst_ip_off.
  intros Hx.
  rewrite store16_other by lia.
  destruct (kTesting && drop item).
  - rewrite store32_other, store16_other by lia. apply memcpy_outside. lia.
  - rewrite store16_other by lia. apply memcpy_outside. lia.
Qed.

Lemma iter_mem_template (item : tx_burst_item_t) (m : memory) (j : Z) :
  0 <= j < 40 ->
  j <> 16 -> j <> 17 -> j <> 38 -> j <> 39 ->
  (kTesting && drop item = true -> ~ 30 <= j <= 33) ->
  iter_mem item m (pkthdr_of item + offsetof_headroom + j)
    = m (routing_info item + j) mod 256.
Proof.
  unfold iter_mem, udp_hdr_of, ipv4_hdr_of, hdr_copy_sz,
    kInetHdrsTotSize, sizeof_eth_hdr_t, sizeof_ipv4_hdr_t, udp_len_off,
    ipv4_tot_len_off, ipv4_dst_ip_off.
  intros Hj H16 H17 H38 H39 Hdrop.
  rewrite store16_other by lia.
  destruct (kTesting && drop item).
  - specialize (Hdrop eq_refl).
    rewrite store32_other, store16_other by lia. apply memcpy_inside. lia.
  - rewrite store16_other by lia. apply memcpy_inside. lia.
Qed.

Lemma iter_mem_dropped (item : tx_burst_item_t) (m : memory) (j : Z) :
  kTesting && drop item = true ->
  30 <= j <= 33 ->
  iter_mem item m (pkthdr_of item + offsetof_headroom + j) = 0.
Proof.
  unfold iter_mem, udp_hdr_of, ipv4_hdr_of, hdr_copy_sz,
    kInetHdrsTotSize, sizeof_eth_hdr_t, sizeof_ipv4_hdr_t, udp_len_off,
    ipv4_tot_len_off, ipv4_dst_ip_off.
  intros -> Hj.
  rewrite store16_other by lia. apply store32_zero. lia.
Qed.

(** X4. Stamping copies the routing template verbatim. For every packet [k]
    of a returning [tx_burst], the 40 bytes at the start of its headroom hold
    the template's bytes as they were when the packet was reached, except the
    IPv4 total-length bytes (16, 17) and the UDP length bytes (38, 39), and
    except the IPv4 destination address (30..33), which is zero exactly when
    [kTesting] and the item's [drop] flag are set. Nothing outside those 40
    bytes is written, so the UDP checksum bytes (40, 41) keep their value. *)
Theorem tx_burst_template_copied (arr : list tx_burst_item_t) (n ret : Z)
    (s s' : state) (k : Z) :
  tx_burst arr n ret s = Returned tt s' ->
  0 <= k < n ->
  exists item s0 sk,
    arr !! Z.to_nat k = Some item /\
    tx_burst_loop arr k s = Returned tt s0 /\
    tx_burst_loop arr (k + 1) s = Returned tt sk /\
    let headroom := pkthdr_of item + offsetof_headroom in
    (forall j, 0 <= j < 40 -> j <> 16 -> j <> 17 -> j <> 38 -> j <> 39 ->
       (kTesting && drop item = true -> ~ 30 <= j <= 33) ->
       mem sk (headroom + j) = mem s0 (routing_info item + j) mod 256) /\
    (kTesting && drop item = true ->
       forall j, 30 <= j <= 33 -> mem sk (headroom + j) = 0) /\
    (forall x, ~ in_headroom item x -> mem sk x = mem s0 x).
Proof.
  intros Hrun Hk.
  apply tx_burst_inv in Hrun as (s1 & last & Hloop & _).
  destruct (tx_burst_loop_prefix arr n k s s1 Hk Hloop)
    as (s0 & sk & Hpre0 & Hiter & Hpre).
  apply tx_burst_iter_inv in Hiter as (item & wr & sgl & Hitem & _ & _ & ->).
  exists item, s0, (iter_state k item wr sgl s0).
  split; [exact Hitem|]. split; [exact Hpre0|]. split; [exact Hpre|].
  destruct (iter_state_fields k item wr sgl s0) as (flag & _ & _ & -> & _).
  cbv zeta. split; [|split].
  - intros j. apply iter_mem_template.
  - intros Hdrop j. apply iter_mem_dropped. exact Hdrop.
  - intros x. apply iter_mem_frame.
Qed.

Lemma tx_loop_mem_frame (arr : list tx_burst_item_t) (n : nat) (x : Z) :
  forall (from : Z) (s s' : state),
  0 <= from ->
  for_loop n from (tx_burst_iter arr) s = Returned tt s' ->
  (forall k item, from <= k < from + Z.of_nat n ->
     arr !! Z.to_nat k = Some item -> ~ in_headroom item x) ->
  mem s' x = mem s x.
Proof.
  induction n as [|n IH]; intros from s s' Hfrom Hrun Hx.
  - cbn in Hrun. injection Hrun as <-. reflexivity.
  - rewrite for_loop_S in Hrun.
    destruct (tx_burst_iter arr from s) as [[] s1| | |] eqn:Hiter; try discriminate.
    apply tx_burst_iter_inv in Hiter as (item & wr & sgl & Hitem & _ & _ & ->).
    rewrite (IH (from + 1) _ s' ltac:(lia) Hrun)
      by (intros k item' Hk; apply Hx; lia).
    destruct (iter_state_fields from item wr sgl s) as (flag & _ & _ & -> & _).
    apply iter_mem_frame. apply (Hx from); [lia|exact Hitem].
Qed.

(** X5. The only memory a returning [tx_burst] writes is the first 40 bytes
    of the headroom of the packets it sends: every address outside all of
    them holds after the call what it held before. *)
Theorem tx_burst_writes_only_headers (arr : list tx_burst_item_t) (n ret : Z)
    (s s' : state) (x : Z) :
  tx_burst arr n ret s = Returned tt s' ->
  (forall k item, 0 <= k < n -> arr !! Z.to_nat k = Some item ->
     ~ in_headroom item x) ->
  mem s' x = mem s x.
Proof.
  intros Hrun Hx.
  apply tx_burst_after_loop in Hrun as (s1 & last & Hloop & _ & _ & _ & _ & ->).
  apply (tx_loop_mem_frame arr (Z.to_nat n) x 0 s s1 ltac:(lia) Hloop).
  intros k item Hk. apply Hx. lia.
Qed.


(** ** Batches the descriptor set cannot hold *)

(** X6. A batch of more than [kPostlist] packets overruns the descriptor
    set. Unless an assertion stops the loop first, with nothing submitted,
    the call reaches an index outside an array. With [NDEBUG] and enough
    items, the loop builds the first [kPostlist] descriptors and then, for
    packet [kPostlist], finds the item and the spare descriptor
    [send_wr[kPostlist]] but no row [send_sgl[kPostlist]]: the rows it goes
    on to write lie past the end of [send_sgl]. Nothing has been submitted
    when that happens. *)
Theorem tx_burst_oversize (arr : list tx_burst_item_t) (n ret : Z) (s : state) :
  0 <= kPostlist ->
  tx_state_ok s ->
  kPostlist < n ->
  n <= Z.of_nat (length arr) ->
  (tx_burst arr n ret s = OutOfBounds \/
   exists expr sf,
     tx_burst arr n ret s = AssertFailed expr sf /\
     NDEBUG = false /\ hw sf = hw s) /\
  (NDEBUG = true ->
   exists sk item wr,
     tx_burst_loop arr kPostlist s = Returned tt sk /\
     hw sk = hw s /\
     arr !! Z.to_nat kPostlist = Some item /\
     send_wr sk !! Z.to_nat kPostlist = Some wr /\
     send_sgl sk !! Z.to_nat kPostlist = None /\
     tx_burst_iter arr kPostlist sk = OutOfBounds /\
     tx_burst arr n ret s = OutOfBounds).
Proof.
  intros HP (Hwr & Hsgl) Hn Harr.
  pose proof (keeps_trace_tx_burst_loop arr n s) as Hloop.
  assert (Hcase : tx_burst arr n ret s = OutOfBounds \/
                  exists expr sf,
                    tx_burst arr n ret s = AssertFailed expr sf /\
                    NDEBUG = false /\ hw sf = hw s).
  { unfold tx_burst, mbind, M_bind.
    destruct (tx_burst_loop arr n s) as [[] s1| | |] eqn:Hrun.
    - exfalso.
      destruct (tx_loop_inv arr (Z.to_nat n) 0 s s1 ltac:(lia) Hrun)
        as (_ & _ & _ & _ & Hin & _).
      destruct (Hin kPostlist ltac:(lia)) as (_ & _ & _ & sgl0 & _ & _ & Hs & _).
      apply lookup_lt_Some in Hs. lia.
    - contradiction.
    - destruct Hloop as (Hd & Hh & _). right. eauto.
    - left. reflexivity. }
  split; [exact Hcase|].
  intros Hnd.
  destruct (tx_loop_returns arr (Z.to_nat kPostlist) 0 s Hnd) as [sk Hsk];
    try lia.
  destruct (tx_loop_inv arr (Z.to_nat kPostlist) 0 s sk ltac:(lia) Hsk)
    as (Lwr & Lsgl & _ & Hfr & _).
  destruct Hfr as (_ & _ & _ & _ & _ & _ & _ & _ & Hhw & _).
  destruct (lookup_lt_is_Some_2 arr (Z.to_nat kPostlist) ltac:(lia))
    as [item Hitem].
  destruct (lookup_lt_is_Some_2 (send_wr sk) (Z.to_nat kPostlist) ltac:(lia))
    as [wr Hwrk].
  assert (Hnone : send_sgl sk !! Z.to_nat kPostlist = None)
    by (apply lookup_ge_None_2; lia).
  exists sk, item, wr.
  split; [exact Hsk|]. split; [exact Hhw|]. split; [exact Hitem|].
  split; [exact Hwrk|]. split; [exact Hnone|]. split.
  - unfold tx_burst_iter, index_const, index, gets, assert, mbind, M_bind.
    rewrite Hitem. cbv beta iota. rewrite Hnd. cbn [orb]. cbv beta iota.
    rewrite Hwrk. cbv beta iota. rewrite Hnone. reflexivity.
  - destruct Hcase as [Hoob | (e & sf & _ & Hd & _)]; [exact Hoob|congruence].
Qed.

(** ** What a run with assertions certifies *)

Lemma assert_true (expr : string) (s : state) : assert true expr s = Returned tt s.
Proof. unfold assert. rewrite orb_true_r. reflexivity. Qed.

Lemma assert_false_debug (expr : string) (s : state) :
  NDEBUG = false -> assert false expr s = AssertFailed expr s.
Proof. intros Hnd. unfold assert. rewrite Hnd. reflexivity. Qed.

Ltac checked_step H Hnd E :=
  lazymatch type of H with
  | context [@assert _ _ ?e ?x ?st] =>
      destruct e eqn:E;
      [ rewrite (assert_true x st) in H
      | rewrite (assert_false_debug x st Hnd) in H; discriminate H ];
      cbv beta iota in H
  end.

Lemma load16_zero_bytes (m : memory) (a : Z) :
  0 <= m a < 256 -> 0 <= m (a + 1) < 256 ->
  load16 m a = 0 -> m a = 0 /\ m (a + 1) = 0.
Proof. unfold load16. destruct host_big_endian; lia. Qed.

(** With assertions on, an iteration that returns has passed every check. *)
Lemma tx_burst_iter_checked (arr : list tx_burst_item_t) (i : Z) (s s' : state) :
  NDEBUG = false ->
  tx_burst_iter arr i s = Returned tt s' ->
  exists item wr,
    arr !! Z.to_nat i = Some item /\
    send_wr s !! Z.to_nat i = Some wr /\
    is_valid (mem s) (msg_buffer item) = true /\
    next wr = elem (i + 1) /\
    opcode wr = IBV_WR_SEND /\
    sg_list wr = elem i /\
    mem s (routing_info item + 24) mod 256 = 0 /\
    mem s (routing_info item + 25) mod 256 = 0 /\
    load16 (mem s) (pkthdr_of item + offsetof_headroom + 40) = 0.
Proof.
  intros Hnd Hrun.
  destruct (tx_burst_iter_oob arr i s s' Hrun)
    as ([item Hitem] & [wr Hwr] & [sgl Hsgl]).
  exists item, wr. split; [exact Hitem|]. split; [exact Hwr|].
  unfold tx_burst_iter, stamp_headers, index_const, index,
    call_get_signaled_flag, write_send_sgl, write_send_wr,
    modify, gets, mbind, M_bind, mret, M_ret in Hrun.
  rewrite Hitem in Hrun. cbv beta iota in Hrun.
  checked_step Hrun Hnd Evalid. rewrite Hwr, Hsgl in Hrun. cbv beta iota in Hrun.
  checked_step Hrun Hnd Enext.
  checked_step Hrun Hnd Eop.
  checked_step Hrun Hnd Esg.
  destruct (get_signaled_flag (nb_tx s)) as [flag nb].
  destruct (pkt_index item =? 0); cbv beta iota in Hrun;
    cbn [mem set_mem set_send_wr set_send_sgl set_nb_tx] in Hrun.
  all: checked_step Hrun Hnd Eip.
  all: cbn [mem set_mem set_send_wr set_send_sgl set_nb_tx] in Hrun.
  all: destruct (kTesting && drop item) eqn:Edrop; cbv beta iota in Hrun;
    cbn [mem set_mem set_send_wr set_send_sgl set_nb_tx] in Hrun.
  all: checked_step Hrun Hnd Eudp.
  all: clear Hrun.
  all: apply Z.eqb_eq in Eip, Eudp.
  all: split; [first [exact Evalid|reflexivity]|].
  all: split; [destruct (next wr); [discriminate|]; cbn in Enext;
               apply Z.eqb_eq in Enext; congruence|].
  all: split; [destruct (opcode wr); try discriminate; reflexivity|].
  all: split; [destruct (sg_list wr); [discriminate|]; cbn in Esg;
               apply Z.eqb_eq in Esg; congruence|].
  all: unfold udp_hdr_of, ipv4_hdr_of, sizeof_eth_hdr_t, sizeof_ipv4_hdr_t,
         ipv4_check_off, udp_check_off, ipv4_tot_len_off, ipv4_dst_ip_off,
         udp_len_off, hdr_copy_sz, kInetHdrsTotSize in *.
  all: set (H := pkthdr_of item + offsetof_headroom) in *.
  all: set (m1 := memcpy (mem s) H (routing_info item) (Z.to_nat (42 - 2))) in *.
  all: assert (Hb24 : m1 (H + 14 + 10) = mem s (routing_info item + 24) mod 256)
         by (unfold m1; replace (H + 14 + 10) with (H + 24) by lia;
             apply memcpy_inside; lia).
  all: assert (Hb25 : m1 (H + 14 + 10 + 1) = mem s (routing_info item + 25) mod 256)
         by (unfold m1; replace (H + 14 + 10 + 1) with (H + 25) by lia;
             apply memcpy_inside; lia).
  all: assert (Hr24 : 0 <= mem s (routing_info item + 24) mod 256 < 256)
         by (apply Z.mod_pos_bound; lia).
  all: assert (Hr25 : 0 <= mem s (routing_info item + 25) mod 256 < 256)
         by (apply Z.mod_pos_bound; lia).
  all: destruct (load16_zero_bytes m1 (H + 14 + 10) ltac:(lia) ltac:(lia) Eip)
         as [Hz24 Hz25].
  all: split; [lia|]. all: split; [lia|].
  all: unfold load16 in Eudp |- *.
  all: rewrite ?store32_other in Eudp by lia.
  all: rewrite !store16_other in Eudp by lia.
  all: unfold m1 in Eudp; rewrite !memcpy_outside in Eudp by lia.
  all: replace (H + 14 + 20 + 6) with (H + 40) in Eudp by lia; exact Eudp.
Qed.

(** X7. In a build with assertions a [tx_burst] that returns certifies its
    preconditions: for every packet [k], descriptor [k] was linked to
    descriptor [k + 1], had opcode [IBV_WR_SEND] and pointed at row [k] of
    [send_sgl] when the call began, and when the packet was reached its
    message buffer was valid, the IPv4 checksum bytes of its routing
    template were zero and the UDP checksum field of its header read zero. *)
Theorem tx_burst_debug_certifies (arr : list tx_burst_item_t) (n ret : Z)
    (s s' : state) (k : Z) :
  NDEBUG = false ->
  tx_burst arr n ret s = Returned tt s' ->
  0 <= k < n ->
  exists item wr s0,
    arr !! Z.to_nat k = Some item /\
    send_wr s !! Z.to_nat k = Some wr /\
    next wr = elem (k + 1) /\
    opcode wr = IBV_WR_SEND /\
    sg_list wr = elem k /\
    tx_burst_loop arr k s = Returned tt s0 /\
    is_valid (mem s0) (msg_buffer item) = true /\
    mem s0 (routing_info item + 24) mod 256 = 0 /\
    mem s0 (routing_info item + 25) mod 256 = 0 /\
    load16 (mem s0) (pkthdr_of item + offsetof_headroom + 40) = 0.
Proof.
  intros Hnd Hrun Hk.
  apply tx_burst_inv in Hrun as (s1 & last & Hloop & _).
  destruct (tx_burst_loop_prefix arr n k s s1 Hk Hloop)
    as (s0 & sk & Hpre0 & Hiter & _).
  destruct (tx_burst_iter_checked arr k s0 sk Hnd Hiter)
    as (item & wr & Hitem & Hwr & Hvalid & Hnext & Hop & Hsg & H24 & H25 & Hudp).
  destruct (tx_loop_inv arr (Z.to_nat k) 0 s s0 ltac:(lia) Hpre0)
    as (_ & _ & _ & _ & _ & Hout).
  destruct (Hout k ltac:(lia) ltac:(lia)) as [Ow _].
  exists item, wr, s0. rewrite <- Ow. repeat split; assumption.
Qed.

(** ** rx_burst in direct-completion mode *)

(** X8. In direct-completion mode [rx_burst] makes one [ibv_poll_cq] call,
    asking for at most [kPostlist] entries, and returns the count it
    reports. A negative return code stops at [assert(ret >= 0)] in a build
    with assertions; with [NDEBUG] it is returned converted to [size_t], that
    is as [2^64 + ret]. The bookkeeping of the emulated mode ([recv_head],
    [recv_backlog], [cqe_idx], [prev_snapshot]) and the replenish counter
    are not touched. The completions [ibv_poll_cq] writes into [recv_wc] are
    the callee's effect and are not part of the state. *)
Theorem rx_burst_direct (poll_ret : Z) (s : state) :
  kDumb = false ->
  - 2 ^ 64 <= poll_ret < 2 ^ 64 ->
  exists s',
    rx_burst poll_ret s =
      (if 0 <=? poll_ret then Returned poll_ret s'
       else if NDEBUG then Returned (2 ^ 64 + poll_ret) s'
       else AssertFailed "ret >= 0" s') /\
    hw s' = hw s ++ [ev_poll_cq kPostlist] /\
    recv_head s' = recv_head s /\ recv_backlog s' = recv_backlog s /\
    cqe_idx s' = cqe_idx s /\ prev_snapshot s' = prev_snapshot s /\
    recvs_to_post s' = recvs_to_post s.
Proof.
  intros Hdumb Hr.
  exists (set_hw (hw s ++ [ev_poll_cq kPostlist]) s).
  split; [|repeat split].
  unfold rx_burst. rewrite Hdumb.
  unfold mbind, M_bind, submit, modify, assert, mret, M_ret.
  rewrite Z.geb_leb.
  destruct (Z.leb_spec 0 poll_ret).
  - rewrite orb_true_r, wrap64_small by lia. reflexivity.
  - rewrite orb_false_r. destruct NDEBUG; [|reflexivity].
    f_equal. unfold wrap64.
    replace poll_ret with (2 ^ 64 + poll_ret + (-1) * 2 ^ 64) at 1 by lia.
    rewrite Z.mod_add by lia. apply Z.mod_small. lia.
Qed.

(** ** post_recvs as seen by its caller *)

(** X10. Whatever its arguments and the state, [post_recvs] never takes the
    compatibility path: a call that returns has left [recv_head] and
    [recv_wr] alone, printed nothing, and submitted either nothing, or
    exactly one striding buffer (the entry of [mp_recv_sge] that
    [mp_sge_idx] names), or one fast encoded descriptor. A call that exits
    is a failed fast post: one submission, one line on stderr, exit code -1.
    A call stopped by an assertion either found
    [num_recvs > kNumRxRingEntries] before touching anything, or is a failed
    striding post. *)
Theorem post_recvs_outcomes (num_recvs ret : Z) (s : state) :
  match post_recvs num_recvs ret s with
  | Returned _ sf =>
      recv_head sf = recv_head s /\ recv_wr sf = recv_wr s /\
      stderr sf = stderr s /\
      (hw sf = hw s \/
       hw sf = hw s ++ [ev_recv_burst (mp_sge_idx s)] \/
       exists wr, hw sf = hw s ++ [ev_post_recv_fast wr])
  | Exited code sf =>
      code = -1 /\ kDumb = false /\ ret <> 0 /\
      stderr sf = stderr s ++ [mk_log post_recv_fast_failed ret] /\
      exists wr, hw sf = hw s ++ [ev_post_recv_fast wr]
  | AssertFailed expr sf =>
      NDEBUG = false /\ stderr sf = stderr s /\
      ((kNumRxRingEntries < num_recvs /\ sf = s) \/
       (kDumb = true /\ ret <> 0 /\
        hw sf = hw s ++ [ev_recv_burst (mp_sge_idx s)]))
  | OutOfBounds => True
  end.
Proof.
  unfold post_recvs, post_recvs_with, use_fast_recv, assert, submit,
    fprintf_stderr, exit, modify, gets, mbind, M_bind, mret, M_ret.
  destruct NDEBUG eqn:Hnd; cbn [orb];
    (destruct (Z.leb_spec num_recvs kNumRxRingEntries);
     [|try (repeat split; auto; fail)]);
    destruct kDumb; cbn [recvs_to_post set_recvs_to_post];
    match goal with
    | |- context [?a <? ?b] => destruct (a <? b)
    end;
    try (cbn; repeat split; auto; fail);
    destruct (Z.eqb_spec ret 0); cbn; repeat split; eauto 10.
Qed.

Lemma to_int_small (z : Z) : 0 <= z < 2 ^ 31 -> to_int z = z.
Proof.
  intros Hz. unfold to_int. rewrite wrap32_small by lia.
  destruct (Z.ltb_spec z (2 ^ 31)); [reflexivity|lia].
Qed.

(** One successful call neither loses nor invents receives. *)
Lemma post_recvs_conserves (num_recvs : Z) (s : state) :
  0 <= num_recvs <= kNumRxRingEntries ->
  0 <= recvs_to_post s ->
  recvs_to_post s + num_recvs < 2 ^ 31 ->
  0 <= kStridesPerWQE ->
  exists s' evs,
    post_recvs num_recvs 0 s = Returned tt s' /\
    hw s' = hw s ++ evs /\
    0 <= posted_total evs /\
    0 <= recvs_to_post s' /\
    recvs_to_post s' + posted_total evs = recvs_to_post s + num_recvs.
Proof.
  intros Hn Hp Hfit Hs.
  assert (Hacc : add64 (recvs_to_post s) num_recvs = recvs_to_post s + num_recvs)
    by (apply add64_small; lia).
  assert (Hassert : NDEBUG = true \/ num_recvs <= kNumRxRingEntries) by (right; lia).
  unfold post_recvs, use_fast_recv.
  destruct (Z.lt_ge_cases (add64 (recvs_to_post s) num_recvs) post_threshold)
    as [Hlt|Hge].
  - rewrite post_recvs_below by assumption.
    exists (set_recvs_to_post (add64 (recvs_to_post s) num_recvs) s), [].
    rewrite Hacc. unfold posted_total. cbn. rewrite app_nil_r. repeat split; lia.
  - unfold post_threshold in Hge. destruct kDumb eqn:Hdumb; rewrite Hacc in Hge.
    + rewrite post_recvs_striding by (try assumption; auto; rewrite ?Hacc; lia).
      eexists _, [_]. split; [reflexivity|]. rewrite Hacc.
      unfold posted_total, posted_count. cbn. repeat split; lia.
    + rewrite post_recvs_fast_spec by (try assumption; rewrite Hacc; exact Hge).
      eexists _, [_]. split; [reflexivity|]. rewrite Hacc.
      unfold posted_total, posted_count. cbn. rewrite to_int_small by lia.
      unfold recv_num_sge. repeat split; lia.
Qed.

Lemma posted_total_app (a b : list hw_event) :
  posted_total (a ++ b) = posted_total a + posted_total b.
Proof.
  unfold posted_total. induction a as [|e a IH]; cbn; [reflexivity|].
  fold (posted_count <$> (a ++ b)). fold (posted_count <$> a). lia.
Qed.

(** X12. Replenishing conserves receives. After any run of successful
    [post_recvs] calls, the receives still pending plus the receives handed
    to the NIC (one stride per striding post, the encoded count per fast
    post) equal the receives pending before plus the counts passed in; the
    run always returns. *)
Theorem post_recvs_seq_conserves (calls : list Z) :
  forall s : state,
  Forall (fun n => 0 <= n <= kNumRxRingEntries) calls ->
  0 <= recvs_to_post s ->
  recvs_to_post s + foldr Z.add 0 calls < 2 ^ 31 ->
  0 <= kStridesPerWQE ->
  exists s' evs,
    post_recvs_seq calls s = Returned tt s' /\
    hw s' = hw s ++ evs /\
    0 <= recvs_to_post s' /\
    recvs_to_post s' + posted_total evs = recvs_to_post s + foldr Z.add 0 calls.
Proof.
  induction calls as [|n rest IH]; intros s Hall Hp Hfit Hs.
  - exists s, []. unfold posted_total. cbn. rewrite app_nil_r. repeat split; lia.
  - apply Forall_cons in Hall as [Hn Hrest]. cbn [foldr] in *.
    assert (Hrest0 : 0 <= foldr Z.add 0 rest).
    { clear -Hrest. induction Hrest; cbn; lia. }
    destruct (post_recvs_conserves n s Hn Hp ltac:(lia) Hs)
      as (s1 & evs1 & Hrun1 & Hhw1 & Hpos1 & Hp1 & Hsum1).
    destruct (IH s1 Hrest Hp1 ltac:(lia) Hs)
      as (s' & evs2 & Hrun2 & Hhw2 & Hp2 & Hsum2).
    exists s', (evs1 ++ evs2).
    cbn [post_recvs_seq]. unfold mbind, M_bind. rewrite Hrun1.
    split; [exact Hrun2|]. split; [rewrite Hhw2, Hhw1, app_assoc; reflexivity|].
    split; [exact Hp2|]. rewrite posted_total_app. lia.
Qed.

(** X13. In direct-completion mode with a positive slack threshold, every
    [post_recvs] that returns leaves fewer than [kRecvSlack] receives
    pending, whatever was pending before; a [post_recvs(0)] that follows is
    therefore a no-op. *)
Theorem post_recvs_direct_pending_low (num_recvs ret ret' : Z) (s s1 : state) :
  kDumb = false ->
  0 < kRecvSlack ->
  0 <= kNumRxRingEntries ->
  post_recvs num_recvs ret s = Returned tt s1 ->
  0 <= recvs_to_post s1 < kRecvSlack /\
  post_recvs 0 ret' s1 = Returned tt s1.
Proof.
  intros Hdumb Hslack HR Hrun.
  assert (Hlow : 0 <= recvs_to_post s1 < kRecvSlack /\ recvs_to_post s1 < 2 ^ 64).
  { pose proof (wrap64_range (recvs_to_post s + num_recvs)) as Hacc.
    fold (add64 (recvs_to_post s) num_recvs) in Hacc.
    revert Hrun.
    unfold post_recvs, post_recvs_with, use_fast_recv, assert, submit,
      fprintf_stderr, exit, modify, gets, mbind, M_bind, mret, M_ret.
    rewrite Hdumb.
    destruct (NDEBUG || (num_recvs <=? kNumRxRingEntries)); [|discriminate].
    cbn [recvs_to_post set_recvs_to_post].
    destruct (Z.ltb_spec (add64 (recvs_to_post s) num_recvs) kRecvSlack).
    - intros Hrun. injection Hrun as <-. cbn. lia.
    - destruct (ret =? 0); [|discriminate].
      intros Hrun. injection Hrun as <-. cbn. lia. }
  destruct Hlow as [Hlow Hfit].
  split; [exact Hlow|].
  assert (Hsame : add64 (recvs_to_post s1) 0 = recvs_to_post s1)
    by (rewrite add64_small by lia; lia).
  unfold post_recvs. rewrite post_recvs_below.
  - rewrite Hsame, set_recvs_to_post_id. reflexivity.
  - right. exact HR.
  - rewrite Hsame. unfold post_threshold. rewrite Hdumb. lia.
Qed.


(** ** What the NIC is handed *)

(** X14. [tx_burst] posts what it built. On return, the scatter-gather rows
    the NIC was handed are the final ones, and the descriptors it was handed
    are the final ones too except for the one link that was cut: descriptor
    [num_pkts - 1] had [next = nullptr] at the post and has
    [next = &send_wr[num_pkts]] afterwards. *)
Theorem tx_burst_posts_final (arr : list tx_burst_item_t) (n ret : Z)
    (s s' : state) :
  tx_burst arr n ret s = Returned tt s' ->
  exists wrs,
    hw s' = hw s ++ [ev_post_send 0 wrs (send_sgl s')] /\
    length wrs = length (send_wr s') /\
    forall (k : nat) wr wr',
      wrs !! k = Some wr -> send_wr s' !! k = Some wr' ->
      sg_list wr = sg_list wr' /\ num_sge wr = num_sge wr' /\
      opcode wr = opcode wr' /\ send_flags wr = send_flags wr' /\
      (k <> Z.to_nat (sub64 n 1) -> wr = wr') /\
      (k = Z.to_nat (sub64 n 1) -> next wr = nullptr /\ next wr' = elem n).
Proof.
  intros Hrun.
  apply tx_burst_inv in Hrun as (s1 & last & Hloop & Hlast & _ & ->).
  pose proof (keeps_trace_tx_burst_loop arr n s) as Hkeep.
  rewrite Hloop in Hkeep. destruct Hkeep as [Hhw _].
  assert (Hlt : (Z.to_nat (sub64 n 1) < length (send_wr s1))%nat)
    by (eapply lookup_lt_Some; eauto).
  eexists. cbn [hw send_wr send_sgl set_send_wr set_hw].
  split; [rewrite Hhw; reflexivity|].
  split; [rewrite !length_insert; reflexivity|].
  intros k wr wr' Hwr Hwr'.
  destruct (Nat.eq_dec k (Z.to_nat (sub64 n 1))) as [->|Hne].
  - rewrite list_lookup_insert_eq in Hwr, Hwr' by exact Hlt.
    injection Hwr as <-. injection Hwr' as <-.
    split; [reflexivity|]. split; [reflexivity|]. split; [reflexivity|].
    split; [reflexivity|]. split; [intros Hk; contradiction|].
    intros _. split; reflexivity.
  - rewrite list_lookup_insert_ne in Hwr, Hwr' by lia.
    rewrite Hwr in Hwr'. injection Hwr' as <-.
    split; [reflexivity|]. split; [reflexivity|]. split; [reflexivity|].
    split; [reflexivity|]. split; [reflexivity|].
    intros Hk. contradiction.
Qed.

(** ** Byte order *)

Lemma load_bytes_ext (n : nat) :
  forall (m1 m2 : memory) (a : Z),
  (forall x, m1 x = m2 x) -> load_bytes m1 a n = load_bytes m2 a n.
Proof.
  induction n as [|n IH]; intros m1 m2 a Hm; [reflexivity|].
  cbn. rewrite Hm, (IH m1 m2) by exact Hm. reflexivity.
Qed.

Lemma store_bytes_ext (bs : list Z) :
  forall (m1 m2 : memory) (a x : Z),
  (forall y, m1 y = m2 y) -> store_bytes m1 a bs x = store_bytes m2 a bs x.
Proof.
  induction bs as [|b rest IH]; intros m1 m2 a x Hm; [apply Hm|].
  cbn. apply IH. intros y. unfold store8. rewrite Hm. reflexivity.
Qed.

Lemma memcpy_ext (m1 m2 : memory) (dst src : Z) (n : nat) (x : Z) :
  (forall y, m1 y = m2 y) -> memcpy m1 dst src n x = memcpy m2 dst src n x.
Proof.
  intros Hm. unfold memcpy. rewrite (load_bytes_ext n m1 m2 src Hm).
  apply store_bytes_ext. exact Hm.
Qed.

End MoreProperties.

Section ByteOrder.
Context {raw_h : RawTransportH} {msg_h : MsgBufferH}.

(** One byte of memory after a [uint16_t] went through [htons] into it: the
    same whatever the byte order of the host. *)
Lemma store16_htons_any_order (b1 b2 : Build) (m1 m2 : memory) (a v x : Z) :
  (forall y, m1 y = m2 y) ->
  @store16 b1 m1 a (@htons b1 v) x = @store16 b2 m2 a (@htons b2 v) x.
Proof.
  intros Hm.
  destruct (Z.eq_dec x a) as [->|Ha].
  - rewrite (proj1 (@store16_htons_bytes b1 m1 a v)).
    rewrite (proj1 (@store16_htons_bytes b2 m2 a v)). reflexivity.
  - destruct (Z.eq_dec x (a + 1)) as [->|Ha1].
    + rewrite (proj2 (@store16_htons_bytes b1 m1 a v)).
      rewrite (proj2 (@store16_htons_bytes b2 m2 a v)). reflexivity.
    + rewrite !store16_other by assumption. apply Hm.
Qed.

Lemma store32_zero_any_order (b1 b2 : Build) (m1 m2 : memory) (a x : Z) :
  (forall y, m1 y = m2 y) ->
  @store32 b1 m1 a 0 x = @store32 b2 m2 a 0 x.
Proof.
  intros Hm.
  destruct (Z_le_dec a x) as [Hlo|Hlo]; [destruct (Z_le_dec x (a + 3)) as [Hhi|Hhi]|].
  - rewrite !store32_zero by lia. reflexivity.
  - rewrite !store32_other by lia. apply Hm.
  - rewrite !store32_other by lia. apply Hm.
Qed.

Lemma iter_mem_any_order (b1 b2 : Build) (item : tx_burst_item_t) (m1 m2 : memory)
    (x : Z) :
  (forall y, m1 y = m2 y) ->
  @iter_mem raw_h msg_h b1 item m1 x = @iter_mem raw_h msg_h b2 item m2 x.
Proof.
  intros Hm. unfold iter_mem.
  apply store16_htons_any_order. intros y.
  destruct (kTesting && drop item).
  - apply store32_zero_any_order. intros z.
    apply store16_htons_any_order. intros w. apply memcpy_ext. exact Hm.
  - apply store16_htons_any_order. intros w. apply memcpy_ext. exact Hm.
Qed.

Lemma tx_loop_any_order (b1 b2 : Build) (arr : list tx_burst_item_t) (n : nat) :
  forall (from : Z) (s1 s2 s1' s2' : state),
  (forall y, mem s1 y = mem s2 y) ->
  for_loop n from (@tx_burst_iter raw_h msg_h b1 arr) s1 = Returned tt s1' ->
  for_loop n from (@tx_burst_iter raw_h msg_h b2 arr) s2 = Returned tt s2' ->
  forall y, mem s1' y = mem s2' y.
Proof.
  induction n as [|n IH]; intros from s1 s2 s1' s2' Hm H1 H2.
  - cbn in H1, H2. injection H1 as <-. injection H2 as <-. exact Hm.
  - rewrite for_loop_S in H1, H2.
    destruct (@tx_burst_iter raw_h msg_h b1 arr from s1) as [[] t1| | |] eqn:E1;
      try discriminate.
    destruct (@tx_burst_iter raw_h msg_h b2 arr from s2) as [[] t2| | |] eqn:E2;
      try discriminate.
    apply tx_burst_iter_inv in E1 as (item1 & wr1 & sgl1 & Hi1 & _ & _ & ->).
    apply tx_burst_iter_inv in E2 as (item2 & wr2 & sgl2 & Hi2 & _ & _ & ->).
    rewrite Hi1 in Hi2. injection Hi2 as <-.
    eapply IH; [|exact H1|exact H2].
    intros y.
    destruct (@iter_state_fields raw_h msg_h b1 from item1 wr1 sgl1 s1)
      as (? & _ & _ & -> & _).
    destruct (@iter_state_fields raw_h msg_h b2 from item1 wr2 sgl2 s2)
      as (? & _ & _ & -> & _).
    apply iter_mem_any_order. exact Hm.
Qed.

(** X15. The bytes [tx_burst] leaves in memory do not depend on the byte
    order of the host: run from the same state, a build for a big-endian
    host and a build for a little-endian host that both return leave every
    byte equal. The two lengths go through [htons] and the dropped
    destination address is all zeroes. *)
Theorem tx_burst_wire_bytes_any_order (b1 b2 : Build)
    (arr : list tx_burst_item_t) (n ret : Z) (s s1' s2' : state) :
  @tx_burst raw_h msg_h b1 arr n ret s = Returned tt s1' ->
  @tx_burst raw_h msg_h b2 arr n ret s = Returned tt s2' ->
  forall x, mem s1' x = mem s2' x.
Proof.
  intros H1 H2 x.
  apply tx_burst_after_loop in H1 as (t1 & _ & Hl1 & _ & _ & _ & _ & ->).
  apply tx_burst_after_loop in H2 as (t2 & _ & Hl2 & _ & _ & _ & _ & ->).
  apply (tx_loop_any_order b1 b2 arr (Z.to_nat n) 0 s s t1 t2); auto.
Qed.

End ByteOrder.

(** * Concrete runs *)

Lemma example_tx_consts_ok (dumb : bool) : @tx_consts_ok (example_h dumb).
Proof. unfold tx_consts_ok, is_size_t. cbn. lia. Qed.

Lemma example_tx_state_ok (dumb : bool) (p : Z) : tx_state_ok (example_state dumb p).
Proof. split; reflexivity. Qed.

Lemma example_chain_intact (dumb : bool) (p : Z) :
  chain_intact (send_wr (example_state dumb p)).
Proof. apply chain_intactb_intact. reflexivity. Qed.

Lemma example_recv_ring_ok : recv_ring_ok example_pending_state.
Proof.
  split; [reflexivity|]. intros i wr Hi.
  do 8 (destruct i as [|i]; [injection Hi as <-; reflexivity|]). discriminate.
Qed.

Section DirectCompletionRuns.
#[local] Existing Instance example_msg_h.
#[local] Existing Instance example_build.
#[local] Existing Instance direct_h.

(** The end-to-end scenario of the specification: a 100-byte first packet
    with one entry, a 60-byte second packet with two, and the stamped
    lengths 86/66 and 46/26 in network byte order. *)
Example tx_burst_scenario :
  match tx_burst example_items 2 0 (example_state false 0) with
  | Returned _ s' =>
      Some (num_sge <$> take 2 (send_wr s'), take 2 (send_sgl s'),
            mem s' <$> [960; 961; 982; 983], mem s' <$> [1064; 1065; 1086; 1087])
  | _ => None
  end
  = Some ([1; 2],
          [ (mk_sge 944 100 7, mk_sge 0 0 0); (mk_sge 1048 56 7, mk_sge 1044 4 7) ],
          [0; 86; 0; 66], [0; 46; 0; 26]).
Proof. vm_compute. reflexivity. Qed.

Lemma tx_burst_sge_layout_witness :
  exists s',
    tx_burst example_items 2 0 (example_state false 0) = Returned tt s' /\
    forall k, 0 <= k < 2 ->
    exists item wr sge0 sge1,
      example_items !! Z.to_nat k = Some item /\
      send_wr s' !! Z.to_nat k = Some wr /\
      send_sgl s' !! Z.to_nat k = Some (sge0, sge1) /\
      (pkt_index item = 0 ->
         num_sge wr = 1 /\ sge0 = first_pkt_sge item /\
         pkt_size_of item = sge_length sge0) /\
      (pkt_index item <> 0 ->
         let offset := mul64 (pkt_index item) kMaxDataPerPkt in
         num_sge wr = 2 /\
         sge_addr sge0 = get_pkthdr_n (msg_buffer item) (pkt_index item) /\
         sge_length sge0 = sizeof_pkthdr_t /\
         sge_addr sge1 = buf (msg_buffer item) + offset /\
         sge_length sge1
           = Z.min kMaxDataPerPkt (sub64 (data_size (msg_buffer item)) offset) /\
         pkt_size_of item = sge_length sge0 + sge_length sge1).
Proof.
  assert (Hr : is_returned (tx_burst example_items 2 0 (example_state false 0)) = true)
    by (vm_compute; reflexivity).
  destruct (tx_burst example_items 2 0 (example_state false 0))
    as [[] s'| | |] eqn:Hrun; try discriminate Hr.
  exists s'. split; [reflexivity|].
  apply (tx_burst_sge_layout example_items 2 0 (example_state false 0) s').
  - apply example_tx_consts_ok.
  - cbn. lia.
  - exact Hrun.
Defined.


Lemma tx_burst_chain_restored_witness :
  exists s',
    tx_burst example_items 2 0 (example_state false 0) = Returned tt s' /\
    chain_intact (send_wr s') /\
    length (send_wr s') = length (send_wr (example_state false 0)) /\
    next <$> send_wr s' = next <$> send_wr (example_state false 0) /\
    exists wrs sgls,
      hw s' = hw (example_state false 0) ++ [ev_post_send 0 wrs sgls] /\
      next <$> wrs = <[Z.to_nat (2 - 1) := nullptr]>
                       (next <$> send_wr (example_state false 0)) /\
      chain_from next wrs (length wrs) 0 = Z.of_nat <$> seq 0 (Z.to_nat 2).
Proof.
  assert (Hr : is_returned (tx_burst example_items 2 0 (example_state false 0)) = true)
    by (vm_compute; reflexivity).
  destruct (tx_burst example_items 2 0 (example_state false 0))
    as [[] s'| | |] eqn:Hrun; try discriminate Hr.
  exists s'. split; [reflexivity|].
  apply (tx_burst_chain_restored example_items 2 0 (example_state false 0) s').
  - apply example_tx_consts_ok.
  - apply example_tx_state_ok.
  - apply example_chain_intact.
  - cbn. lia.
  - exact Hrun.
Defined.

Lemma tx_burst_bounds_witness :
  (forall n, 1 <= n <= 4 -> n <= 2 ->
     tx_burst example_items n 0 (example_state false 0) <> OutOfBounds /\
     (forall i, 0 <= i < n ->
        is_Some (send_wr (example_state false 0) !! Z.to_nat i) /\
        is_Some (send_sgl (example_state false 0) !! Z.to_nat i)) /\
     is_Some (send_wr (example_state false 0) !! Z.to_nat (sub64 n 1)) /\
     is_Some (send_wr (example_state false 0) !! Z.to_nat n)) /\
  (sub64 0 1 = 2 ^ 64 - 1 /\
   send_wr (example_state false 0) !! Z.to_nat (sub64 0 1) = None /\
   tx_burst example_items 0 0 (example_state false 0) = OutOfBounds).
Proof.
  apply (tx_burst_bounds example_items 0 (example_state false 0)).
  - apply example_tx_consts_ok.
  - apply example_tx_state_ok.
Defined.

Lemma post_failure_is_fatal_witness :
  (forall s', tx_burst example_items 2 5 (example_state false 0) <> Returned tt s') /\
  (exists sf ev,
     tx_burst example_items 2 5 (example_state false 0)
       = AssertFailed "ret == 0" sf /\
     hw sf = [ev] /\ stderr sf = []) /\
  (exists sf ev,
     @tx_burst direct_h example_msg_h example_release_build
       example_items 2 5 (example_state false 0) = Exited (-1) sf /\
     hw sf = [ev] /\ stderr sf = [mk_log ibv_post_send_failed 5]) /\
  (exists sf ev,
     post_recvs 4 5 (example_state false 0) = Exited (-1) sf /\
     hw sf = hw (example_state false 0) ++ [ev] /\
     stderr sf = stderr (example_state false 0) ++ [mk_log post_recv_fast_failed 5]).
Proof.
  destruct (post_failure_is_fatal 5 ltac:(lia)) as [Htx Hrecv].
  split; [apply Htx|]. split; [|split].
  - assert (Hx : match tx_burst_loop example_items 2 (example_state false 0) with
                 | Returned _ s1 =>
                     match send_wr s1 !! Z.to_nat (sub64 2 1) with
                     | Some _ => true
                     | None => false
                     end
                 | _ => false
                 end = true) by (vm_compute; reflexivity).
    destruct (tx_burst_loop example_items 2 (example_state false 0))
      as [[] s1| | |] eqn:Hloop; try discriminate Hx.
    destruct (send_wr s1 !! Z.to_nat (sub64 2 1)) as [last|] eqn:Hlast;
      [|discriminate Hx].
    destruct (proj2 (Htx example_items 2 (example_state false 0)) s1 last Hloop Hlast)
      as (sf & ev & Hhw & _ & Hdebug).
    destruct (Hdebug eq_refl) as [Hrun Herr].
    exists sf, ev. repeat split; assumption.
  - destruct (@post_failure_is_fatal direct_h example_msg_h example_release_build
                5 ltac:(lia)) as [Htx' _].
    assert (Hx : match @tx_burst_loop direct_h example_msg_h example_release_build
                         example_items 2 (example_state false 0) with
                 | Returned _ s1 =>
                     match send_wr s1 !! Z.to_nat (sub64 2 1) with
                     | Some _ => true
                     | None => false
                     end
                 | _ => false
                 end = true) by (vm_compute; reflexivity).
    destruct (@tx_burst_loop direct_h example_msg_h example_release_build
                example_items 2 (example_state false 0))
      as [[] s1| | |] eqn:Hloop; try discriminate Hx.
    destruct (send_wr s1 !! Z.to_nat (sub64 2 1)) as [last|] eqn:Hlast;
      [|discriminate Hx].
    destruct (proj2 (Htx' example_items 2 (example_state false 0)) s1 last Hloop Hlast)
      as (sf & ev & Hhw & Hrelease & _).
    destruct (Hrelease eq_refl) as [Hrun Herr].
    exists sf, ev. repeat split; assumption.
  - apply Hrecv; [reflexivity|right; cbn; lia|vm_compute; discriminate].
Defined.

Lemma post_recvs_compat_splice_witness :
  exists posted,
    post_recvs_with false 2 0 example_pending_state =
      Returned tt
        (set_recvs_to_post 0
           (set_recv_head ((6 + 5) mod 8)
              (set_hw [ev_post_recv 6 posted] example_pending_state))) /\
    chain_from recv_next posted (length posted) 6 = [6; 7; 0; 1; 2].
Proof.
  apply (post_recvs_compat_splice 2 0 example_pending_state).
  - reflexivity.
  - right. cbn. lia.
  - cbn. lia.
  - apply example_recv_ring_ok.
  - cbn. lia.
  - vm_compute. discriminate.
  - vm_compute. split; discriminate.
  - reflexivity.
Defined.

(** Lines 165-190 on their own size the posted range by the pending
    counter: with 3 receives already pending, [post_recvs_with false 2] posts
    the 5 descriptors 6, 7, 0, 1, 2 and moves the head from 6 to 3. *)
Lemma post_recvs_compat_not_num_recvs :
  let posted := <[2%nat := mk_recv_wr 2 nullptr 1]> (recv_wr example_pending_state) in
  let s' := set_recvs_to_post 0
              (set_recv_head 3 (set_hw [ev_post_recv 6 posted] example_pending_state)) in
  post_recvs_with false 2 0 example_pending_state = Returned tt s' /\
  chain_from recv_next posted (length posted) 6 = [6; 7; 0; 1; 2] /\
  length (chain_from recv_next posted (length posted) 6) <> Z.to_nat 2 /\
  recv_head s' <> (recv_head example_pending_state + 2) mod kRQDepth.
Proof.
  cbv zeta. split; [reflexivity|]. split; [reflexivity|].
  split; vm_compute; discriminate.
Qed.



End DirectCompletionRuns.

Section StridingRuns.
#[local] Existing Instance example_msg_h.
#[local] Existing Instance example_build.
#[local] Existing Instance striding_h.

Lemma rx_burst_emulated_progress_witness :
  exists s',
    rx_burst 0 (example_state true 3) = Returned 3 s' /\
    recv_backlog s' = 0 /\
    recv_head s' = 3 /\
    cqe_idx s' = 1 /\
    prev_snapshot s' = 3.
Proof.
  destruct (rx_burst_emulated_progress 0 (example_state true 3))
    as (s' & Hrun & _ & _ & Hb & Hh & Hc & Hp & _).
  - reflexivity.
  - unfold rx_consts_ok, is_size_t. cbn. lia.
  - unfold rx_state_ok, is_size_t. cbn. lia.
  - vm_compute. split; reflexivity.
  - exists s'. repeat split; assumption.
Defined.

Lemma rx_burst_emulated_stale_witness :
  rx_burst 0 (example_state true 0) = Returned 0 (example_state true 0).
Proof.
  apply (rx_burst_emulated_stale 0 (example_state true 0)).
  - reflexivity.
  - left. reflexivity.
Defined.

Lemma post_recvs_accumulates_witness :
  post_recvs 3 0 (example_state true 0)
    = Returned tt (set_recvs_to_post 3 (example_state true 0)) /\
  post_recvs 5 0 (example_state true 0)
    = Returned tt
        (set_recvs_to_post 1
           (set_mp_sge_idx 1 (set_hw [ev_recv_burst 0] (example_state true 0)))) /\
  @post_recvs (example_h false) example_build 5 0 (example_state false 0)
    = Returned tt
        (set_recvs_to_post 0
           (set_hw [ev_post_recv_fast (mk_recv_wr 3185 nullptr 5)]
              (example_state false 0))).
Proof.
  split; [|split].
  - apply (post_recvs_accumulates 3 0 (example_state true 0)).
    + right. cbn. lia.
    + vm_compute. reflexivity.
  - apply (post_recvs_accumulates 5 0 (example_state true 0)).
    + right. cbn. lia.
    + vm_compute. discriminate.
    + reflexivity.
    + right. reflexivity.
    + cbn. lia.
  - apply (@post_recvs_accumulates (example_h false) example_build 5 0
             (example_state false 0)).
    + right. cbn. lia.
    + vm_compute. discriminate.
    + reflexivity.
    + reflexivity.
Defined.

Lemma post_recvs_zero_below_threshold_witness :
  post_recvs 0 0 (example_state true 0) = Returned tt (example_state true 0).
Proof.
  apply (post_recvs_zero_below_threshold 0 (example_state true 0)).
  - cbn. lia.
  - unfold is_size_t. cbn. lia.
  - vm_compute. reflexivity.
Defined.

(** C8 does not hold as worded. In striding mode [post_recvs(8)] on the
    fresh transport posts once and leaves 4 receives pending, a full stride;
    the [post_recvs(0)] that follows then posts again, takes the counter
    from 4 to 0 and moves the buffer index from 1 to 2. *)
Lemma post_recvs_zero_posts :
  let s0 := example_state true 0 in
  let s1 := set_recvs_to_post 4 (set_mp_sge_idx 1 (set_hw [ev_recv_burst 0] s0)) in
  let s2 := set_recvs_to_post 0
              (set_mp_sge_idx 2 (set_hw [ev_recv_burst 0; ev_recv_burst 1] s0)) in
  post_recvs 8 0 s0 = Returned tt s1 /\
  post_recvs 0 0 s1 = Returned tt s2 /\
  hw s2 = hw s1 ++ [ev_recv_burst 1] /\
  recvs_to_post s2 <> recvs_to_post s1 /\
  mp_sge_idx s2 <> mp_sge_idx s1.
Proof.
  cbv zeta. split; [reflexivity|]. split; [reflexivity|].
  split; [reflexivity|]. split; vm_compute; discriminate.
Qed.

End StridingRuns.

(** * Concrete runs of the further properties *)

Section MoreDirectRuns.
#[local] Existing Instance example_msg_h.
#[local] Existing Instance example_build.
#[local] Existing Instance direct_h.

Lemma example_tx_returns :
  is_returned (tx_burst example_items 2 0 (example_state false 0)) = true.
Proof. vm_compute. reflexivity. Qed.

Lemma tx_burst_signaling_witness :
  exists s',
    tx_burst example_items 2 0 (example_state false 0) = Returned tt s' /\
    nb_tx s' = Nat.iter (Z.to_nat 2) sig_next (nb_tx (example_state false 0)) /\
    forall k, 0 <= k < 2 ->
      exists item wr,
        example_items !! Z.to_nat k = Some item /\
        send_wr s' !! Z.to_nat k = Some wr /\
        let flag := sig_flag (nb_tx (example_state false 0)) (Z.to_nat k) in
        (pkt_index item <> 0 -> send_flags wr = flag) /\
        (pkt_index item = 0 ->
           send_flags wr =
             if (0 <? kMaxInline) &&
                (sge_length (first_pkt_sge item)
                   <=? add64 kMaxInline MLX5_ETH_INLINE_HEADER_SIZE)
             then Z.lor flag IBV_SEND_INLINE else flag).
Proof.
  pose proof example_tx_returns as Hr.
  destruct (tx_burst example_items 2 0 (example_state false 0))
    as [[] s'| | |] eqn:Hrun; try discriminate Hr.
  exists s'. split; [reflexivity|].
  apply (tx_burst_signaling example_items 2 0 (example_state false 0) s' Hrun).
Defined.

Lemma tx_burst_descriptor_frame_witness :
  exists s',
    tx_burst example_items 2 0 (example_state false 0) = Returned tt s' /\
    length (send_wr s') = 5%nat /\
    length (send_sgl s') = 4%nat /\
    (forall k, 2 <= k ->
       send_wr s' !! Z.to_nat k = send_wr (example_state false 0) !! Z.to_nat k /\
       send_sgl s' !! Z.to_nat k = send_sgl (example_state false 0) !! Z.to_nat k).
Proof.
  pose proof example_tx_returns as Hr.
  destruct (tx_burst example_items 2 0 (example_state false 0))
    as [[] s'| | |] eqn:Hrun; try discriminate Hr.
  exists s'. split; [reflexivity|].
  destruct (tx_burst_descriptor_frame example_items 2 0 (example_state false 0) s'
              ltac:(lia) Hrun) as (Lw & Ls & _ & Hrest & _).
  split; [exact Lw|]. split; [exact Ls|]. exact Hrest.
Defined.

Lemma example_drop_tx_returns :
  is_returned (tx_burst example_drop_items 2 0 example_routed_state) = true.
Proof. vm_compute. reflexivity. Qed.

(** The template of [example_routed_state] sent twice: packet 0 (header at
    944) keeps the template's destination address, packet 1 (header at 1048,
    [drop] set) has it zeroed; the other template bytes arrive as they are. *)
Lemma tx_burst_template_copied_witness :
  exists s' sk0 sk1,
    tx_burst example_drop_items 2 0 example_routed_state = Returned tt s' /\
    tx_burst_loop example_drop_items 1 example_routed_state = Returned tt sk0 /\
    tx_burst_loop example_drop_items 2 example_routed_state = Returned tt sk1 /\
    (mem sk0 944 = 1 /\ mem sk0 (944 + 29) = 30 /\
     mem sk0 (944 + 30) = 31 /\ mem sk0 (944 + 33) = 34 /\
     mem sk0 (944 + 34) = 35 /\ mem sk0 5030 = 31) /\
    (mem sk1 1048 = 1 /\ mem sk1 (1048 + 29) = 30 /\
     mem sk1 (1048 + 30) = 0 /\ mem sk1 (1048 + 33) = 0 /\
     mem sk1 (1048 + 34) = 35 /\ mem sk1 5030 = 31).
Proof.
  pose proof example_drop_tx_returns as Hr.
  destruct (tx_burst example_drop_items 2 0 example_routed_state)
    as [[] s'| | |] eqn:Hrun; try discriminate Hr.
  destruct (tx_burst_template_copied example_drop_items 2 0 example_routed_state
              s' 0 Hrun ltac:(lia))
    as (item0 & s0 & sk0 & Hitem0 & Hpre0 & Hk0 & Htpl0 & _ & Hframe0).
  destruct (tx_burst_template_copied example_drop_items 2 0 example_routed_state
              s' 1 Hrun ltac:(lia))
    as (item1 & s1 & sk1 & Hitem1 & Hpre1 & Hk1 & Htpl1 & Hdrop1 & Hframe1).
  injection Hitem0 as <-. injection Hitem1 as <-.
  injection Hpre0 as <-.
  change (0 + 1) with 1 in Hk0. change (1 + 1) with 2 in Hk1.
  rewrite Hk0 in Hpre1. injection Hpre1 as <-.
  assert (Hsrc0 : forall j, 0 <= j < 40 ->
            mem sk0 (5000 + j) = mem example_routed_state (5000 + j)).
  { intros j Hj. apply Hframe0. intros [_ Hhi]. revert Hhi.
    change (5000 + j < 944 + 0 + 40 -> False). lia. }
  assert (Hsrc1 : forall j, 0 <= j < 40 ->
            mem sk1 (5000 + j) = mem example_routed_state (5000 + j)).
  { intros j Hj. rewrite <- (Hsrc0 j Hj). apply Hframe1. intros [_ Hhi].
    revert Hhi. change (5000 + j < 1048 + 0 + 40 -> False). lia. }
  assert (Hcopy0 : forall j, 0 <= j < 40 ->
            j <> 16 -> j <> 17 -> j <> 38 -> j <> 39 ->
            mem sk0 (944 + j) = mem example_routed_state (5000 + j) mod 256).
  { intros j Hj H16 H17 H38 H39.
    apply (Htpl0 j Hj H16 H17 H38 H39). discriminate. }
  assert (Hcopy1 : forall j, 0 <= j < 40 ->
            j <> 16 -> j <> 17 -> j <> 38 -> j <> 39 -> ~ 30 <= j <= 33 ->
            mem sk1 (1048 + j) = mem example_routed_state (5000 + j) mod 256).
  { intros j Hj H16 H17 H38 H39 Hdst.
    rewrite <- (Hsrc0 j Hj).
    apply (Htpl1 j Hj H16 H17 H38 H39). intros _. exact Hdst. }
  exists s', sk0, sk1.
  split; [reflexivity|]. split; [exact Hk0|]. split; [exact Hk1|]. split.
  - split; [exact (Hcopy0 0 ltac:(lia) ltac:(lia) ltac:(lia) ltac:(lia) ltac:(lia))|].
    split; [exact (Hcopy0 29 ltac:(lia) ltac:(lia) ltac:(lia) ltac:(lia) ltac:(lia))|].
    split; [exact (Hcopy0 30 ltac:(lia) ltac:(lia) ltac:(lia) ltac:(lia) ltac:(lia))|].
    split; [exact (Hcopy0 33 ltac:(lia) ltac:(lia) ltac:(lia) ltac:(lia) ltac:(lia))|].
    split; [exact (Hcopy0 34 ltac:(lia) ltac:(lia) ltac:(lia) ltac:(lia) ltac:(lia))|].
    exact (Hsrc0 30 ltac:(lia)).
  - split; [exact (Hcopy1 0 ltac:(lia) ltac:(lia) ltac:(lia) ltac:(lia) ltac:(lia)
                     ltac:(lia))|].
    split; [exact (Hcopy1 29 ltac:(lia) ltac:(lia) ltac:(lia) ltac:(lia) ltac:(lia)
                     ltac:(lia))|].
    split; [exact (Hdrop1 eq_refl 30 ltac:(lia))|].
    split; [exact (Hdrop1 eq_refl 33 ltac:(lia))|].
    split; [exact (Hcopy1 34 ltac:(lia) ltac:(lia) ltac:(lia) ltac:(lia) ltac:(lia)
                     ltac:(lia))|].
    exact (Hsrc1 30 ltac:(lia)).
Defined.

Lemma tx_burst_writes_only_headers_witness :
  exists s',
    tx_burst example_items 2 0 (example_state false 0) = Returned tt s' /\
    mem s' 5000 = mem (example_state false 0) 5000.
Proof.
  pose proof example_tx_returns as Hr.
  destruct (tx_burst example_items 2 0 (example_state false 0))
    as [[] s'| | |] eqn:Hrun; try discriminate Hr.
  exists s'. split; [reflexivity|].
  apply (tx_burst_writes_only_headers example_items 2 0 (example_state false 0) s'
           5000 Hrun).
  intros k item Hk Hitem.
  assert (Hcases : k = 0 \/ k = 1) by lia.
  destruct Hcases as [-> | ->]; injection Hitem as <-;
    intros [_ Hhi]; vm_compute in Hhi; discriminate Hhi.
Defined.

(** Five packets into a descriptor set made for four, built with [NDEBUG]:
    four descriptors are built, and packet 4 has no row in [send_sgl]. *)
Lemma tx_burst_oversize_witness :
  exists sk item wr,
    @tx_burst_loop direct_h example_msg_h example_release_build
      example_oversize_items 4 (example_state false 0) = Returned tt sk /\
    hw sk = [] /\
    example_oversize_items !! 4%nat = Some item /\
    send_wr sk !! 4%nat = Some wr /\
    send_sgl sk !! 4%nat = None /\
    @tx_burst_iter direct_h example_msg_h example_release_build
      example_oversize_items 4 sk = OutOfBounds /\
    @tx_burst direct_h example_msg_h example_release_build
      example_oversize_items 5 0 (example_state false 0) = OutOfBounds.
Proof.
  destruct (@tx_burst_oversize direct_h example_msg_h example_release_build
              example_oversize_items 5 0 (example_state false 0))
    as [_ Hrelease].
  - cbn. lia.
  - apply example_tx_state_ok.
  - cbn. lia.
  - cbn. lia.
  - exact (Hrelease eq_refl).
Defined.

Lemma tx_burst_debug_certifies_witness :
  exists s' wr s0,
    tx_burst example_items 2 0 (example_state false 0) = Returned tt s' /\
    send_wr (example_state false 0) !! Z.to_nat 1 = Some wr /\
    next wr = elem (1 + 1) /\ opcode wr = IBV_WR_SEND /\ sg_list wr = elem 1 /\
    tx_burst_loop example_items 1 (example_state false 0) = Returned tt s0 /\
    mem s0 (5000 + 24) mod 256 = 0 /\
    mem s0 (5000 + 25) mod 256 = 0.
Proof.
  pose proof example_tx_returns as Hr.
  destruct (tx_burst example_items 2 0 (example_state false 0))
    as [[] s'| | |] eqn:Hrun; try discriminate Hr.
  destruct (tx_burst_debug_certifies example_items 2 0 (example_state false 0) s' 1
              (eq_refl : @NDEBUG example_build = false) Hrun ltac:(lia))
    as (item & wr & s0 & Hitem & Hwr & Hn & Ho & Hs & H0 & _ & H24 & H25 & _).
  injection Hitem as <-.
  exists s', wr, s0. repeat split; assumption.
Defined.

Lemma rx_burst_direct_witness :
  exists s',
    rx_burst 3 (example_state false 0) = Returned 3 s' /\
    hw s' = [ev_poll_cq 4] /\
    recv_head s' = 0 /\ recv_backlog s' = 0 /\ cqe_idx s' = 0.
Proof.
  destruct (rx_burst_direct 3 (example_state false 0)
              (eq_refl : @kDumb direct_h = false) ltac:(lia))
    as (s' & Hrun & Hhw & Hh & Hb & Hc & _).
  exists s'. repeat split; assumption.
Defined.

Lemma post_recvs_direct_pending_low_witness :
  let s1 := set_recvs_to_post 0
              (set_hw [ev_post_recv_fast (mk_recv_wr 3185 nullptr 5)]
                 (example_state false 0)) in
  0 <= recvs_to_post s1 < 4 /\ post_recvs 0 0 s1 = Returned tt s1.
Proof.
  cbv zeta.
  apply (post_recvs_direct_pending_low 5 0 0 (example_state false 0)).
  - reflexivity.
  - cbn. lia.
  - cbn. lia.
  - reflexivity.
Defined.

Lemma example_tx_returns_big_endian :
  is_returned (@tx_burst direct_h example_msg_h example_big_endian_build
                 example_items 2 0 (example_state false 0)) = true.
Proof. vm_compute. reflexivity. Qed.

Lemma tx_burst_posts_final_witness :
  exists s' wrs,
    tx_burst example_items 2 0 (example_state false 0) = Returned tt s' /\
    hw s' = hw (example_state false 0) ++ [ev_post_send 0 wrs (send_sgl s')] /\
    length wrs = length (send_wr s').
Proof.
  pose proof example_tx_returns as Hr.
  destruct (tx_burst example_items 2 0 (example_state false 0))
    as [[] s'| | |] eqn:Hrun; try discriminate Hr.
  destruct (tx_burst_posts_final example_items 2 0 (example_state false 0) s' Hrun)
    as (wrs & Hhw & Hlen & _).
  exists s', wrs. split; [reflexivity|]. split; assumption.
Defined.

Lemma tx_burst_wire_bytes_any_order_witness :
  exists s1 s2,
    tx_burst example_items 2 0 (example_state false 0) = Returned tt s1 /\
    @tx_burst direct_h example_msg_h example_big_endian_build
      example_items 2 0 (example_state false 0) = Returned tt s2 /\
    forall x, mem s1 x = mem s2 x.
Proof.
  pose proof example_tx_returns as Hr1.
  pose proof example_tx_returns_big_endian as Hr2.
  destruct (tx_burst example_items 2 0 (example_state false 0))
    as [[] s1| | |] eqn:Hrun1; try discriminate Hr1.
  destruct (@tx_burst direct_h example_msg_h example_big_endian_build
              example_items 2 0 (example_state false 0))
    as [[] s2| | |] eqn:Hrun2; try discriminate Hr2.
  exists s1, s2. split; [reflexivity|]. split; [reflexivity|].
  exact (tx_burst_wire_bytes_any_order example_build example_big_endian_build
           example_items 2 0 (example_state false 0) s1 s2 Hrun1 Hrun2).
Defined.

End MoreDirectRuns.

Section MoreStridingRuns.
#[local] Existing Instance example_msg_h.
#[local] Existing Instance example_build.
#[local] Existing Instance striding_h.

Lemma rx_burst_keeps_state_ok_witness :
  exists n s',
    rx_burst 0 (example_state true 3) = Returned n s' /\
    0 <= n <= 4 /\
    rx_state_ok s'.
Proof.
  apply (rx_burst_keeps_state_ok 0 (example_state true 3)).
  - reflexivity.
  - unfold rx_consts_ok, is_size_t. cbn. lia.
  - unfold rx_state_ok, is_size_t. cbn. lia.
Defined.

Lemma post_recvs_seq_below_witness :
  post_recvs_seq [1; 1; 1] (example_state true 0)
    = Returned tt (set_recvs_to_post (0 + (1 + (1 + (1 + 0)))) (example_state true 0)).
Proof.
  apply (post_recvs_seq_below [1; 1; 1] (example_state true 0)).
  - repeat constructor; cbn; lia.
  - cbn. lia.
  - vm_compute. discriminate.
  - vm_compute. reflexivity.
Defined.

Lemma post_recvs_seq_conserves_witness :
  exists s' evs,
    post_recvs_seq [3; 5; 0; 2] (example_state true 0) = Returned tt s' /\
    hw s' = hw (example_state true 0) ++ evs /\
    0 <= recvs_to_post s' /\
    recvs_to_post s' + posted_total evs = 0 + (3 + (5 + (0 + (2 + 0)))).
Proof.
  apply (post_recvs_seq_conserves [3; 5; 0; 2] (example_state true 0)).
  - repeat constructor; cbn; lia.
  - cbn. lia.
  - vm_compute. reflexivity.
  - cbn. lia.
Defined.

End MoreStridingRuns.
